(** * hoval-gateway: the CAN protocol layer

    A shallow embedding of [gateway/message.py], [gateway/core.py] and the
    settings loader of [__main__.py], with the properties of the protocol
    layer stated and settled on it.

    Conventions.
    - Python integers are [Z]; [>>], [<<], [&] and [|] are [Z.shiftr],
      [Z.shiftl], [Z.land] and [Z.lor].
    - A [bytearray] is a [list Z] whose elements lie in [0, 256); the
      operations that Python range-checks ([append], [extend]) are written
      with the check.
    - A [dict] is a [gmap]; the class-level dictionaries of
      [ResponseParser] are threaded as explicit state.
    - A Python call either returns or raises: [result]. *)

From Stdlib Require Import ZArith List Bool Lia Ascii String.
From stdpp Require Import base option list gmap strings.

Local Open Scope Z_scope.

(** ** Python outcomes *)

Inductive exn : Type :=
| NoValidMessageException
| VariableNotFoundError (env_name settings_name : string)
| AttributeError
| TypeError
| ValueError
| KeyError.

Inductive result (A : Type) : Type :=
| Return (a : A)
| Raise (e : exn).

Arguments Return {A} a.
Arguments Raise {A} e.

#[global] Instance result_ret : MRet result := fun A a => Return a.

#[global] Instance result_bind : MBind result := fun A B k r =>
  match r with
  | Return a => k a
  | Raise e => Raise e
  end.

Definition raises {A} (r : result A) : Prop := exists e, r = Raise e.

(** [int.from_bytes(b, byteorder='big', signed=False)] *)
Definition int_from_bytes_big (b : list Z) : Z :=
  fold_left (fun acc x => acc * 256 + x) b 0.

(** [bytearray.append(x)]: [ValueError] unless [x] is in [range(256)]. *)
Definition bytearray_append (b : list Z) (x : Z) : result (list Z) :=
  if (0 <=? x) && (x <? 256) then Return (b ++ [x]) else Raise ValueError.

(** [bytearray.extend(xs)] for an iterable of ints: all or nothing. *)
Definition bytearray_extend (b : list Z) (xs : list Z) : result (list Z) :=
  if forallb (fun x => (0 <=? x) && (x <? 256)) xs then Return (b ++ xs)
  else Raise ValueError.

(** ** Arbitration identifier (message.py, module-level helpers) *)

Definition get_message_id (arbitration_id : Z) : Z :=
  Z.shiftr arbitration_id 24.

Definition get_message_priority (arbitration_id : Z) : Z :=
  Z.land (Z.shiftr arbitration_id 16) 0xff.

(** The source masks with [0xfff] here, not [0xff]. *)
Definition get_message_device_type (arbitration_id : Z) : Z :=
  Z.land (Z.shiftr arbitration_id 8) 0xfff.

Definition get_message_device_id (arbitration_id : Z) : Z :=
  Z.land arbitration_id 0xff.

Definition build_arbitration_id (message_id priority device_type device_id : Z) : Z :=
  Z.lor (Z.lor (Z.lor (Z.shiftl message_id 24) (Z.shiftl priority 16))
               (Z.shiftl device_type 8))
        device_id.


Definition get_message_header (data : list Z) : Z := nth 0 data 0.

Definition get_message_len (data : list Z) : Z := Z.shiftr (nth 0 data 0) 3.

Definition get_operation_id (data : list Z) : Z := nth 1 data 0.

(** ** External collaborators

    [gateway.datatypes] and [gateway.datapoint] are consumed, not defined,
    by the protocol layer.  Their decoders and the registry lookup are
    taken as parameters; the decoded-value domain is abstract and carries
    the comparison that Python's [<] and [>] apply to it. *)

Class Values := {
  value : Type;
  value_ltb : value -> value -> bool;
  (* no value is below itself *)
  value_ltb_irrefl : forall x, value_ltb x x = false
}.

Section Collaborators.
Context `{Values}.

(** A [gateway.datatypes] object: only [convert_from_bytes] is used. *)
Record Datatype := {
  convert_from_bytes : list Z -> value
}.

(** A registry entry.  [get_datapoint_limits()] yields [None] or a dict
    that may hold the keys "lower" and "upper". *)
Record Datapoint := {
  function_group : Z;
  function_number : Z;
  datapoint_id : Z;
  function_name : string;
  get_datapoint_type : Datatype;
  get_datapoint_limits : option (gmap string value);
  periodic : bool
}.

(** Modelled from the spec: [Datapoint.get_datapoint_by_bytes()], which
    [SendMessage._put_header] appends to the header, is not in the
    source; section 4.4 gives the header as ending in
    [datapoint_id_hi, datapoint_id_lo], the identifier as two bytes,
    most significant first. *)
Definition get_datapoint_by_bytes (d : Datapoint) : list Z :=
  [Z.land (Z.shiftr (datapoint_id d) 8) 0xff; Z.land (datapoint_id d) 0xff].

(** The constructors [Signed(bits, decimal)], [Unsigned(bits, decimal)]
    and [List()] of [gateway.datatypes]. *)
Class Datatypes := {
  Signed : Z -> Z -> Datatype;
  Unsigned : Z -> Z -> Datatype;
  List_ : Datatype
}.

(** [datapoint.get_datapoint_by_id(function_group, function_number,
    datapoint_id)]; [None] when the triple is not registered. *)
Class Registry := {
  get_datapoint_by_id : Z -> Z -> Z -> option Datapoint
}.
End Collaborators.

Arguments Datatype {_}.
Arguments Datapoint {_}.
Arguments Datatypes {_}.
Arguments Registry {_}.

(** ** message.py *)

(** [class Operation(Enum)] *)
Inductive Operation : Type := RESPONSE | GET_REQUEST | SET_REQUEST.

Definition Operation_value (o : Operation) : Z :=
  match o with
  | RESPONSE => 0x42
  | GET_REQUEST => 0x40
  | SET_REQUEST => 0x46
  end.

(** [Operation.list()] *)
Definition Operation_list : list Z :=
  map Operation_value [RESPONSE; GET_REQUEST; SET_REQUEST].

(** [Operation(v)]: the member with value [v], [ValueError] if none. *)
Definition Operation_of_value (v : Z) : result Operation :=
  if v =? 0x42 then Return RESPONSE
  else if v =? 0x40 then Return GET_REQUEST
  else if v =? 0x46 then Return SET_REQUEST
  else Raise ValueError.

(** [x in xs] on a list of ints *)
Definition Z_in (x : Z) (xs : list Z) : bool := existsb (Z.eqb x) xs.

(** [class Message]: the fields set by [__init__]. *)
Record Message := {
  arbitration_id : Z;
  message_id : Z;
  priority : Z;
  device_type : Z;
  device_id : Z;
  operation_id : Z;
  data : list Z
}.

Definition Message_init (arbitration_id operation_id : Z) : Message :=
  {| arbitration_id := arbitration_id;
     message_id := Z.shiftr arbitration_id 24;
     priority := Z.land (Z.shiftr arbitration_id 16) 0xff;
     device_type := Z.land (Z.shiftr arbitration_id 8) 0xff;
     device_id := Z.land arbitration_id 0xff;
     operation_id := operation_id;
     data := [] |}.

Definition _is_valid (self : Message) : bool :=
  Z_in (operation_id self) Operation_list.

Definition set_data (self : Message) (d : list Z) : Message :=
  {| arbitration_id := arbitration_id self;
     message_id := message_id self;
     priority := priority self;
     device_type := device_type self;
     device_id := device_id self;
     operation_id := operation_id self;
     data := d |}.

(** [class ReceiveMessage(Message)] *)
Record ReceiveMessage := {
  rm_base : Message;
  nb_remaining : Z;
  message_len : Z
}.

Definition ReceiveMessage_init (arbitration_id operation_id message_len : Z)
  : ReceiveMessage :=
  {| rm_base := Message_init arbitration_id operation_id;
     nb_remaining := message_len + 1;
     message_len := message_len |}.

(** [ReceiveMessage.put_data]; the argument is the payload of a received
    frame, a bytearray already, so [extend] cannot fail. *)
Definition put_data (self : ReceiveMessage) (d : list Z) : ReceiveMessage :=
  if negb (_is_valid (rm_base self)) then self
  else {| rm_base := set_data (rm_base self) (data (rm_base self) ++ d);
          nb_remaining := nb_remaining self - 1;
          message_len := message_len self |}.

(** [data[:-2]] *)
Definition drop_last_two (d : list Z) : list Z := take (length d - 2)%nat d.

Definition put_extended_data (self : ReceiveMessage) (d : list Z) : ReceiveMessage :=
  if negb (_is_valid (rm_base self)) then self
  else {| rm_base := set_data (rm_base self) (data (rm_base self) ++ drop_last_two d);
          nb_remaining := nb_remaining self - 1;
          message_len := message_len self |}.

(** The receive-side messages that the class's own methods produce. *)
Inductive reassembled : ReceiveMessage -> Prop :=
| reassembled_init (arbitration_id operation_id message_len : Z) :
    reassembled (ReceiveMessage_init arbitration_id operation_id message_len)
| reassembled_put_data (m : ReceiveMessage) (d : list Z) :
    reassembled m -> reassembled (put_data m d)
| reassembled_put_extended_data (m : ReceiveMessage) (d : list Z) :
    reassembled m -> reassembled (put_extended_data m d).

(** [can.Message] of python-can: the fields the gateway reads and sets. *)
Module can.
Record Message := {
  arbitration_id : Z;
  data : list Z;
  is_extended_id : bool
}.
End can.

Section ProtocolLayer.
Context `{V : Values} {DT : Datatypes} {REG : Registry}.

(** What [ReceiveMessage.parse] returns:
    [(read_datapoint, Operation(self.operation_id), converted_value)]. *)
Definition parsed : Type := Datapoint * Operation * value.

(** Records handed to [logging]. *)
Inductive log_record : Type :=
| LogError (msg : string)
| LogInfoNewDevice (device_id device_type : Z)
| LogDebug (msg : string)
| LogDebugParsed (r : parsed)
| LogDebugFLO (function_group function_number datapoint_id : Z)
              (datapoints : list value) (orig : list Z) (len : nat).

(** [ReceiveMessage.parse]: the records logged, then the outcome.
    A registry miss makes [read_datapoint] [None], and the first method
    call on it raises [AttributeError]. *)
Definition ReceiveMessage_parse (self : ReceiveMessage)
  : list log_record * result parsed :=
  let data := data (rm_base self) in
  if (length data <? 6)%nat then ([], Raise NoValidMessageException)
  else
    let function_group := nth 2 data 0 in
    let function_number := nth 3 data 0 in
    let datapoint_id := int_from_bytes_big (take 2 (drop 4 data)) in
    let datapoint_value := drop 6 data in
    let datapoints :=
      if (length datapoint_value =? 1)%nat then
        let v1 := convert_from_bytes (Signed 8 1) datapoint_value in
        let v2 := convert_from_bytes (Unsigned 8 1) datapoint_value in
        let v3 := convert_from_bytes List_ datapoint_value in
        [v1; v2; v3]
      else if (length datapoint_value =? 2)%nat then
        let v1 := convert_from_bytes (Signed 16 1) datapoint_value in
        let v2 := convert_from_bytes (Unsigned 16 1) datapoint_value in
        let v3 := convert_from_bytes List_ datapoint_value in
        [v1; v2; v3]
      else if (length datapoint_value =? 4)%nat then
        let v1 := convert_from_bytes (Signed 32 1) datapoint_value in
        let v2 := convert_from_bytes (Unsigned 32 1) datapoint_value in
        let v3 := convert_from_bytes List_ datapoint_value in
        [v1; v2; v3]
      else
        let v3 := convert_from_bytes List_ datapoint_value in
        [v3] in
    ([LogDebugFLO function_group function_number datapoint_id datapoints
                  datapoint_value (length datapoint_value)],
     match get_datapoint_by_id function_group function_number datapoint_id with
     | None => Raise AttributeError
     | Some read_datapoint =>
         let datapoint_limits := get_datapoint_limits read_datapoint in
         let converted_value :=
           convert_from_bytes (get_datapoint_type read_datapoint) (drop 6 data) in
         let out_of_bounds :=
           match datapoint_limits with
           | Some limits =>
               match limits !! "lower"%string, limits !! "upper"%string with
               | Some lower, Some upper =>
                   value_ltb converted_value lower || value_ltb upper converted_value
               | _, _ => false
               end
           | None => false
           end in
         if out_of_bounds then Raise NoValidMessageException
         else
           operation ← Operation_of_value (operation_id (rm_base self));
           mret (read_datapoint, operation, converted_value)
     end).

(** [class SendMessage(Message)] *)
Record SendMessage := {
  sm_base : Message;
  sm_message_len : Z;
  header_data : list Z
}.

Definition _message_size : Z := 8.

Definition _put_header (self : SendMessage) (datapoint_of_message : Datapoint)
  : result SendMessage :=
  h ← bytearray_append (header_data self) (sm_message_len self);
  h ← bytearray_append h (operation_id (sm_base self));
  h ← bytearray_append h (function_group datapoint_of_message);
  h ← bytearray_append h (function_number datapoint_of_message);
  h ← bytearray_extend h (get_datapoint_by_bytes datapoint_of_message);
  mret {| sm_base := sm_base self;
          sm_message_len := sm_message_len self;
          header_data := h |}.

Definition SendMessage_init (arbitration_id operation_id : Z)
           (datapoint_of_message : Datapoint) : result SendMessage :=
  _put_header {| sm_base := Message_init arbitration_id operation_id;
                 sm_message_len := 1;
                 header_data := [] |}
              datapoint_of_message.

Definition SendMessage_put_data (self : SendMessage) (d : list Z)
  : result SendMessage :=
  if negb (_is_valid (sm_base self)) then mret self
  else
    d' ← bytearray_extend (data (sm_base self)) d;
    mret {| sm_base := set_data (sm_base self) d';
            sm_message_len := sm_message_len self;
            header_data := header_data self |}.

Definition put_single_data (self : SendMessage) (d : Z) : result SendMessage :=
  SendMessage_put_data self [d].

Definition to_can_message (self : SendMessage) : result can.Message :=
  let can_data := ([] ++ header_data self) ++ data (sm_base self) in
  if Z.of_nat (length (data (sm_base self))) + Z.of_nat (length (header_data self))
     >? _message_size
  then Raise NoValidMessageException
  else mret {| can.arbitration_id := arbitration_id (sm_base self);
               can.data := can_data;
               can.is_extended_id := true |}.

(** A [SendMessage] after any number of [put_data] calls. *)
Fixpoint put_data_all (self : SendMessage) (ds : list (list Z))
  : result SendMessage :=
  match ds with
  | [] => mret self
  | d :: ds' => self' ← SendMessage_put_data self d; put_data_all self' ds'
  end.

(** ** core.py *)

(** Modelled from the spec: [settings.OPERATIONS], which core.py reads,
    is not in the source; section 3 gives the three known operation
    codes, the values of [Operation] in message.py. *)
Definition OPERATIONS : list (string * Z) :=
  [("RESPONSE"%string, 0x42); ("GET_REQUEST"%string, 0x40);
   ("SET_REQUEST"%string, 0x46)].

Definition OPERATIONS_values : list Z := map snd OPERATIONS.

(** [settings.OPERATIONS[key]] for a key of the literal *)
Definition OPERATIONS_at (key : string) : Z :=
  match list_find (fun kv => bool_decide (fst kv = key)) OPERATIONS with
  | Some (_, kv) => snd kv
  | None => 0
  end.

(** [gateway.datapoint.Device(device_id, device_type)] *)
Record Device := {
  Device_device_id : Z;
  Device_device_type : Z
}.

(** Modelled from the spec: core.py builds its envelope with
    [Message(arbitration_id, message_len, operation_id)], fills it with
    [put(Response(data))] and decodes it with [parse_data()]; message.py
    defines none of the three under these names.  Sections 3 and 4.3
    describe them: the envelope holds the header fields and a remaining
    count of [declared_length + 1], a frame's payload is appended and the
    count decremented, and the parse step is the one of
    [ReceiveMessage.parse].  They are taken to be [ReceiveMessage], its
    [put_data] and its [parse]. *)
Definition Message3 (arbitration_id message_len operation_id : Z)
  : ReceiveMessage :=
  ReceiveMessage_init arbitration_id operation_id message_len.

Definition put (self : ReceiveMessage) (response_data : list Z) : ReceiveMessage :=
  put_data self response_data.

Definition parse_data (self : ReceiveMessage) : list log_record * result parsed :=
  ReceiveMessage_parse self.

(** What a name may be bound to where the source relies on dynamic
    typing: a message, or the set literal [{message}] that the
    first-frame branch stores in [_pending_msg]. *)
Inductive pyobj : Type :=
| OMessage (m : ReceiveMessage)
| OSet (elems : list ReceiveMessage).

(** Operands of [str + _]. *)
Inductive pyval : Type :=
| PyStr (s : string)
| PyInt (z : Z)
| PyTuple (r : parsed).

(** [s + v] for a [str] [s]: [TypeError] unless [v] is a [str]. *)
Definition str_add (s : string) (v : pyval) : result string :=
  match v with
  | PyStr t => Return (s ++ t)%string
  | _ => Raise TypeError
  end.

(** The class attributes of [ResponseParser]. *)
Record ResponseParser := {
  _pending_msg : gmap Z pyobj;
  _devices : gmap Z Device
}.

Definition ResponseParser_init : ResponseParser :=
  {| _pending_msg := ∅; _devices := ∅ |}.

(** A method body: it reads and updates the tables, logs, and returns
    or raises.  What was logged and stored before a raise stays. *)
Definition M (A : Type) : Type :=
  ResponseParser -> ResponseParser * list log_record * result A.

#[global] Instance M_ret : MRet M := fun A a s => (s, [], Return a).

#[global] Instance M_bind : MBind M := fun A B k m s =>
  match m s with
  | (s1, l1, Return a) =>
      match k a s1 with
      | (s2, l2, r) => (s2, l1 ++ l2, r)
      end
  | (s1, l1, Raise e) => (s1, l1, Raise e)
  end.

Definition logging (r : log_record) : M unit := fun s => (s, [r], Return tt).

Definition lift {A} (r : result A) : M A := fun s => (s, [], r).

Definition lift_logged {A} (lr : list log_record * result A) : M A :=
  fun s => (s, fst lr, snd lr).

Definition get_pending_msg : M (gmap Z pyobj) :=
  fun s => (s, [], Return (_pending_msg s)).

Definition get_devices : M (gmap Z Device) :=
  fun s => (s, [], Return (_devices s)).

Definition set_pending_msg (p : gmap Z pyobj) : M unit :=
  fun s => ({| _pending_msg := p; _devices := _devices s |}, [], Return tt).

Definition set_devices (d : gmap Z Device) : M unit :=
  fun s => ({| _pending_msg := _pending_msg s; _devices := d |}, [], Return tt).

(** Attribute access on whatever [_pending_msg] holds. *)
Definition obj_put (o : pyobj) (response_data : list Z) : result pyobj :=
  match o with
  | OMessage m => Return (OMessage (put m response_data))
  | OSet _ => Raise AttributeError
  end.

Definition obj_nb_remaining (o : pyobj) : result Z :=
  match o with
  | OMessage m => Return (nb_remaining m)
  | OSet _ => Raise AttributeError
  end.

Definition obj_operation_id (o : pyobj) : result Z :=
  match o with
  | OMessage m => Return (operation_id (rm_base m))
  | OSet _ => Raise AttributeError
  end.

Definition obj_parse_data (o : pyobj) : M parsed :=
  match o with
  | OMessage m => lift_logged (parse_data m)
  | OSet _ => lift (Raise AttributeError)
  end.

(** [ResponseParser.parse(msg)] *)
Definition ResponseParser_parse (msg : can.Message) : M (option parsed) :=
  if (length (can.data msg) <? 2)%nat then
    _ ← logging (LogError "Message too small");
    mret None
  else
    let message :=
      Message3 (can.arbitration_id msg)
               (Z.shiftr (nth 0 (can.data msg) 0) 3)
               (nth 1 (can.data msg) 0) in
    if Z_in (operation_id (rm_base message)) OPERATIONS_values then
      devices ← get_devices;
      _ ← match devices !! device_id (rm_base message) with
          | None =>
              _ ← logging (LogInfoNewDevice (device_id (rm_base message))
                                            (device_type (rm_base message)));
              set_devices
                (<[device_id (rm_base message) :=
                     {| Device_device_id := device_id (rm_base message);
                        Device_device_type := device_type (rm_base message) |}]>
                   devices)
          | Some _ => mret tt
          end;
      if message_id (rm_base message) =? 0x1f then
        if message_len message =? 0 then
          let message := put message (can.data msg) in
          if operation_id (rm_base message) =? OPERATIONS_at "RESPONSE" then
            r ← lift_logged (parse_data message);
            mret (Some r)
          else
            r ← lift_logged (parse_data message);
            s ← lift (str_add "Message data: " (PyTuple r));
            _ ← logging (LogDebug s);
            s ← lift (str_add "arbitration_id: "
                              (PyInt (arbitration_id (rm_base message))));
            _ ← logging (LogDebug s);
            mret None
        else
          pending ← get_pending_msg;
          _ ← set_pending_msg
                (<[operation_id (rm_base message) := OSet [message]]> pending);
          mret None
      else
        let msg_header := nth 0 (can.data msg) 0 in
        pending ← get_pending_msg;
        match pending !! msg_header with
        | Some message =>
            (* the object in the table is the one mutated *)
            message ← lift (obj_put message (can.data msg));
            _ ← set_pending_msg (<[msg_header := message]> pending);
            n ← lift (obj_nb_remaining message);
            if n =? 0 then
              pending ← get_pending_msg;
              _ ← set_pending_msg (delete msg_header pending);
              op ← lift (obj_operation_id message);
              if op =? OPERATIONS_at "RESPONSE" then
                r ← obj_parse_data message;
                mret (Some r)
              else
                r ← obj_parse_data message;
                _ ← logging (LogDebugParsed r);
                mret None
            else mret None
        | None => mret None
        end
    else mret None.

(** Successive calls of [parse] on one parser: the outcome of every
    call, in order.  The tables are class attributes, so what a call
    stored before raising is seen by the next call. *)
Fixpoint feed (s : ResponseParser) (msgs : list can.Message)
  : ResponseParser * list (result (option parsed)) :=
  match msgs with
  | [] => (s, [])
  | msg :: msgs' =>
      match ResponseParser_parse msg s with
      | (s1, _, r) =>
          match feed s1 msgs' with
          | (s2, rs) => (s2, r :: rs)
          end
      end
  end.

(** [PeriodicRequest] and [OneTimeRequest]: the attributes that
    [__init__] computes from the device. *)
Definition _prio : Z := 8160.

Record PeriodicRequest := {
  pr_device : Device;
  pr_arbitration_id : Z
}.

Definition PeriodicRequest_init (device : Device) : PeriodicRequest :=
  {| pr_device := device;
     pr_arbitration_id :=
       Z.lor (Z.lor (Z.shiftl _prio 16) (Z.shiftl (Device_device_type device) 8))
             (Device_device_id device) |}.

Record OneTimeRequest := {
  otr_device : Device;
  otr_arbitration_id : Z;
  otr_function_name : string;
  otr_operation_id : Z
}.

Definition OneTimeRequest_init (device : Device) (operation : Z)
           (function_name : string) : OneTimeRequest :=
  {| otr_device := device;
     otr_arbitration_id :=
       Z.lor (Z.lor (Z.shiftl _prio 16) (Z.shiftl (Device_device_type device) 8))
             (Device_device_id device);
     otr_function_name := function_name;
     otr_operation_id := operation |}.
End ProtocolLayer.

(** ** __main__.py: settings *)

(** A scalar of the settings file or a default; [SNone] is [None]. *)
Inductive setting : Type :=
| SNone
| SBool (b : bool)
| SInt (z : Z)
| SStr (s : string).

(** [str.lower()], on ASCII letters. *)
Definition ascii_lower (c : ascii) : ascii :=
  let n := nat_of_ascii c in
  if ((65 <=? n) && (n <=? 90))%nat then ascii_of_nat (n + 32) else c.

Fixpoint lower (s : string) : string :=
  match s with
  | EmptyString => EmptyString
  | String c s' => String (ascii_lower c) (lower s')
  end.

Definition string_in (x : string) (xs : list string) : bool :=
  existsb (String.eqb x) xs.

Definition VariableNotFoundError_message (env_name settings_name : string) : string :=
  ("Variable not found in env (" ++ env_name ++ ") and settings.yml ("
     ++ settings_name ++ ")")%string.

(** What [yaml.full_load] may hand over where the program expects a
    mapping, told apart by how Python treats [key in x] and [x[key]] for a
    [str] key:
    - a mapping;
    - a value that is not iterable ([None], a number, a boolean, a date):
      [in] raises [TypeError];
    - a string, a sequence or a set: [in] is a containment test, and
      indexing by a [str] raises [TypeError]. *)
Inductive yaml_value : Type :=
| YMapping (d : gmap string setting)
| YNotIterable
| YContainer (contains : string -> bool).

(** [key in x] *)
Definition py_in (key : string) (x : yaml_value) : result bool :=
  match x with
  | YMapping d => Return (match d !! key with Some _ => true | None => false end)
  | YNotIterable => Raise TypeError
  | YContainer contains => Return (contains key)
  end.

(** [x[key]] *)
Definition py_getitem (x : yaml_value) (key : string) : result setting :=
  match x with
  | YMapping d =>
      match d !! key with
      | Some v => Return v
      | None => Raise KeyError
      end
  | YNotIterable => Raise TypeError
  | YContainer _ => Raise TypeError
  end.

Section Settings.
(** [os.environ] *)
Variable environ : gmap string string.

(** [gateway.datapoint.parse_datapoints] and
    [gateway.request.parse_requests], outside this layer: what a call on
    an element returns or raises. *)
Variable parse_datapoints : yaml_value -> result unit.
Variable parse_requests : yaml_value -> result unit.

Definition get_env_settings_safe (env_name settings_name : string)
           (settings : yaml_value) (default : setting) : result setting :=
  match environ !! env_name with
  | Some v =>
      if string_in (lower v) ["true"; "1"]%string then Return (SBool true)
      else if string_in (lower v) ["false"; "0"]%string then Return (SBool false)
      else Return (SStr v)
  | None =>
      present ← py_in settings_name settings;
      if (present : bool) then py_getitem settings settings_name
      else
        match default with
        | SNone => Raise (VariableNotFoundError env_name settings_name)
        | d => Return d
        end
  end.

(** The module-level dictionaries and what the program did so far. *)
Inductive event : Type :=
| EvLoggingError (msg : string)
| EvParseDatapoints
| EvParseRequests
| EvCanHandler (interface : setting)
| EvCandumpHandler (file : string).

Record globals := {
  _mqtt_settings : gmap string setting;
  _can_settings : gmap string setting;
  trace : list event
}.

Definition globals_init : globals :=
  {| _mqtt_settings := ∅; _can_settings := ∅; trace := [] |}.

Definition emit (e : event) (g : globals) : globals :=
  {| _mqtt_settings := _mqtt_settings g;
     _can_settings := _can_settings g;
     trace := trace g ++ [e] |}.

(** [_mqtt_settings[key] = get_env_settings_safe(...)] *)
Definition mqtt_assign (key env_name settings_name : string)
           (element : yaml_value) (default : setting) (g : globals)
  : globals * result unit :=
  match get_env_settings_safe env_name settings_name element default with
  | Return v =>
      ({| _mqtt_settings := <[key := v]> (_mqtt_settings g);
          _can_settings := _can_settings g;
          trace := trace g |}, Return tt)
  | Raise e => (g, Raise e)
  end.

Definition can_assign (key env_name settings_name : string)
           (element : yaml_value) (default : setting) (g : globals)
  : globals * result unit :=
  match get_env_settings_safe env_name settings_name element default with
  | Return v =>
      ({| _mqtt_settings := _mqtt_settings g;
          _can_settings := <[key := v]> (_can_settings g);
          trace := trace g |}, Return tt)
  | Raise e => (g, Raise e)
  end.

(** Statements in sequence: the first raise ends the block. *)
Definition andthen (c1 c2 : globals -> globals * result unit) (g : globals)
  : globals * result unit :=
  match c1 g with
  | (g1, Return _) => c2 g1
  | (g1, Raise e) => (g1, Raise e)
  end.

(** [try: body  except VariableNotFoundError as e: logging.error(e)];
    any other exception passes through. *)
Definition try_except_VariableNotFoundError
           (body : globals -> globals * result unit) (g : globals)
  : globals * result unit :=
  match body g with
  | (g1, Raise (VariableNotFoundError env_name settings_name)) =>
      (emit (EvLoggingError (VariableNotFoundError_message env_name settings_name)) g1,
       Return tt)
  | other => other
  end.

Definition parse_mqtt_settings (element : yaml_value)
  : globals -> globals * result unit :=
  try_except_VariableNotFoundError
    (andthen (mqtt_assign "enable" "MQTT_ENABLE" "enable" element (SBool true))
    (andthen (mqtt_assign "name" "MQTT_NAME" "name" element SNone)
    (andthen (mqtt_assign "topic" "MQTT_TOPIC" "topic" element (SStr "hoval-gw"))
    (andthen (mqtt_assign "broker" "MQTT_BROKER" "broker" element SNone)
    (andthen (mqtt_assign "username" "MQTT_USERNAME" "username" element SNone)
    (andthen (mqtt_assign "password" "MQTT_PASSWORD" "password" element SNone)
             (mqtt_assign "port" "MQTT_PORT" "port" element (SStr "1883")))))))).

Definition parse_can_settings (element : yaml_value)
  : globals -> globals * result unit :=
  try_except_VariableNotFoundError
    (can_assign "interface" "CAN_INTERFACE" "interface" element (SStr "can0")).

(** A top-level item of the settings file, by its key, with its element
    as loaded. *)
Inductive item : Type :=
| ItemDatapoints (element : yaml_value)
| ItemRequests (element : yaml_value)
| ItemMqtt (element : yaml_value)
| ItemCan (element : yaml_value)
| ItemOther (name : string).

(** The body of the loop of [parse_settings] for one item.  The two
    outside parsers are recorded as calls; what they raise leaves the
    loop. *)
Definition parse_item (i : item) : globals -> globals * result unit :=
  match i with
  | ItemDatapoints element =>
      fun g => (emit EvParseDatapoints g, parse_datapoints element)
  | ItemRequests element =>
      fun g => (emit EvParseRequests g, parse_requests element)
  | ItemMqtt element => parse_mqtt_settings element
  | ItemCan element => parse_can_settings element
  | ItemOther _ => fun g => (g, Return tt)
  end.

(** The loop over [settings.items()]. *)
Fixpoint parse_items (items : list item) : globals -> globals * result unit :=
  match items with
  | [] => fun g => (g, Return tt)
  | i :: items' => andthen (parse_item i) (parse_items items')
  end.

(** The loaded settings file: a mapping, or anything else, which has no
    [items]. *)
Inductive document : Type :=
| DMapping (items : list item)
| DNotMapping.

(** [parse_settings], after [yaml.full_load]. *)
Definition parse_settings (settings : document) : globals -> globals * result unit :=
  match settings with
  | DMapping items => parse_items items
  | DNotMapping => fun g => (g, Raise AttributeError)
  end.

(** [main], from its first statement to the construction of the bus
    handler: [parse_settings(settings)], then [CanHandler] on
    [_can_settings["interface"]] or [CandumpHandler(file)]. *)
Definition main_to_handler (file : option string) (settings : document)
  : globals * result unit :=
  match parse_settings settings globals_init with
  | (g, Return _) =>
      match file with
      | None =>
          match _can_settings g !! "interface"%string with
          | Some interface => (emit (EvCanHandler interface) g, Return tt)
          | None => (g, Raise KeyError)
          end
      | Some f => (emit (EvCandumpHandler f) g, Return tt)
      end
  | (g, Raise e) => (g, Raise e)
  end.
End Settings.

(** ** Vocabulary of the properties *)

Definition is_byte (x : Z) : Prop := 0 <= x < 256.

(** Every entry of the pending table is a set literal, which is all the
    first-frame branch ever stores. *)
Definition pending_all_sets `{V : Values} {DT : Datatypes} {REG : Registry}
           (s : ResponseParser) : Prop :=
  forall k o, _pending_msg s !! k = Some o -> exists elems, o = OSet elems.

(** ** Sample collaborators, for evaluating the model

    Integer values decoded big-endian; one registered datapoint, group 3,
    number 4, id 5, an unsigned byte limited to [0, 100]. *)

Definition Z_values : Values :=
  {| value := Z; value_ltb := Z.ltb; value_ltb_irrefl := Z.ltb_irrefl |}.

Definition signed_from_bytes (bits : Z) (b : list Z) : Z :=
  let u := int_from_bytes_big b in
  if u <? 2 ^ (bits - 1) then u else u - 2 ^ bits.

Definition sample_datatypes : @Datatypes Z_values :=
  {| Signed := fun bits _ => @Build_Datatype Z_values (signed_from_bytes bits);
     Unsigned := fun _ _ => @Build_Datatype Z_values int_from_bytes_big;
     List_ := @Build_Datatype Z_values int_from_bytes_big |}.

Definition sample_datapoint : @Datapoint Z_values :=
  {| function_group := 3;
     function_number := 4;
     datapoint_id := 5;
     function_name := "sample";
     get_datapoint_type := @Build_Datatype Z_values int_from_bytes_big;
     get_datapoint_limits :=
       Some (<["lower"%string := 0]> (<["upper"%string := 100]> (∅ : gmap string Z)));
     periodic := true |}.

Definition sample_registry : @Registry Z_values :=
  {| get_datapoint_by_id := fun fg fn id =>
       if (fg =? 3) && (fn =? 4) && (id =? 5) then Some sample_datapoint else None |}.

Definition sample_parse :=
  ResponseParser_parse (V := Z_values) (DT := sample_datatypes) (REG := sample_registry).

Definition sample_ReceiveMessage_parse :=
  ReceiveMessage_parse (V := Z_values) (DT := sample_datatypes) (REG := sample_registry).

(** ** Frames of the end-to-end scenarios *)

(** First frame of a two-frame response: message kind [0x1f], device type
    1, device id 2; header byte [0x08], declared length 1. *)
Definition scenario_first_frame : can.Message :=
  {| can.arbitration_id := 0x1f000102;
     can.data := [0x08; 0x42; 0x03; 0x04; 0x00; 0x05; 0x2A];
     can.is_extended_id := true |}.

(** Its continuation: first payload byte equal to that of the first
    frame. *)
Definition scenario_continuation : can.Message :=
  {| can.arbitration_id := 0x08000102;
     can.data := [0x08; 0x42; 0x2B];
     can.is_extended_id := true |}.

(** A continuation frame whose first payload byte is the operation code
    of the first frame. *)
Definition continuation_on_operation_key : can.Message :=
  {| can.arbitration_id := 0x08000102;
     can.data := [0x42; 0x42; 0x2B];
     can.is_extended_id := true |}.

(** Single-frame messages for datapoint (3, 4, 5) with the given operation
    code and value byte. *)
Definition single_frame (operation value_byte : Z) : can.Message :=
  {| can.arbitration_id := 0x1f000102;
     can.data := [0x00; operation; 0x03; 0x04; 0x00; 0x05; value_byte];
     can.is_extended_id := true |}.

(** A single-frame response cut after its two header bytes. *)
Definition truncated_response : can.Message :=
  {| can.arbitration_id := 0x1f000102;
     can.data := [0x00; 0x42];
     can.is_extended_id := true |}.

(** The MQTT settings that [parse_mqtt_settings] requests without a
    default: environment name and settings name. *)
Definition required_mqtt_settings : list (string * string) :=
  [("MQTT_NAME", "name"); ("MQTT_BROKER", "broker");
   ("MQTT_USERNAME", "username"); ("MQTT_PASSWORD", "password")]%string.


(** Outside parsers that return. *)
Definition parser_returns (element : yaml_value) : result unit := Return tt.

(** A block that only assigns settings: no event, and no exception
    other than [VariableNotFoundError]. *)
Definition assigns_only (body : globals -> globals * result unit) : Prop :=
  forall g,
    trace (fst (body g)) = trace g /\
    (snd (body g) = Return tt
     \/ exists env_name settings_name,
          snd (body g) = Raise (VariableNotFoundError env_name settings_name)).

(** The test that [ReceiveMessage.parse] applies to the converted value:
    both limits declared, and the value below "lower" or above "upper". *)
Definition limits_violated `{V : Values} (dp : Datapoint) (v : value) : bool :=
  match get_datapoint_limits dp with
  | Some limits =>
      match limits !! "lower"%string, limits !! "upper"%string with
      | Some lower, Some upper => value_ltb v lower || value_ltb upper v
      | _, _ => false
      end
  | None => false
  end.

(** A datapoint whose declared type decodes like none of the candidate
    decoders of [sample_datatypes]: the big-endian integer plus 1000.  No
    limits. *)
Definition offset_datapoint : @Datapoint Z_values :=
  {| function_group := 3;
     function_number := 4;
     datapoint_id := 5;
     function_name := "offset";
     get_datapoint_type :=
       @Build_Datatype Z_values (fun b => int_from_bytes_big b + 1000);
     get_datapoint_limits := None;
     periodic := false |}.

Definition offset_registry : @Registry Z_values :=
  {| get_datapoint_by_id := fun fg fn id =>
       if (fg =? 3) && (fn =? 4) && (id =? 5) then Some offset_datapoint else None |}.

(** ** Vocabulary of the further properties *)

(** A call of one of the two filling methods of [ReceiveMessage]. *)
Inductive put_call : Type :=
| PutData (d : list Z)
| PutExtendedData (d : list Z).

Definition apply_put (m : ReceiveMessage) (c : put_call) : ReceiveMessage :=
  match c with
  | PutData d => put_data m d
  | PutExtendedData d => put_extended_data m d
  end.

(** The calls made one after the other on the same message. *)
Definition apply_puts (m : ReceiveMessage) (cs : list put_call) : ReceiveMessage :=
  fold_left apply_put cs m.

(** The bytes that a call contributes to the buffer. *)
Definition put_call_bytes (c : put_call) : list Z :=
  match c with
  | PutData d => d
  | PutExtendedData d => drop_last_two d
  end.

(** The argument that a call passes. *)
Definition put_call_payload (c : put_call) : list Z :=
  match c with
  | PutData d => d
  | PutExtendedData d => d
  end.

(** Every entry of the device table sits under its own [device_id], and
    both its fields are bytes. *)
Definition devices_wf (devices : gmap Z Device) : Prop :=
  forall k d, devices !! k = Some d ->
    Device_device_id d = k /\ is_byte k /\ is_byte (Device_device_type d).

(** Whether a settings file has a "can" item. *)
Definition has_can_item (settings : list item) : bool :=
  existsb (fun i => match i with ItemCan _ => true | _ => false end) settings.

(** * Properties *)

(** ** Bit fields as arithmetic *)

Lemma lor_disjoint_add (x b n : Z) :
  0 <= n -> Z.land x (Z.ones n) = 0 -> 0 <= b < 2 ^ n -> Z.lor x b = x + b.
Proof.
  intros Hn Hx Hb.
  assert (Hland : Z.land x b = 0).
  { replace b with (Z.land (Z.ones n) b).
    - rewrite Z.land_assoc, Hx. apply Z.land_0_l.
    - rewrite Z.land_comm, Z.land_ones by lia. apply Z.mod_small. lia. }
  rewrite <- Z.lxor_lor by exact Hland.
  symmetry. apply Z.add_nocarry_lxor. exact Hland.
Qed.

Lemma low_bits_zero (x k n : Z) :
  0 <= n -> x = k * 2 ^ n -> Z.land x (Z.ones n) = 0.
Proof.
  intros Hn ->. rewrite Z.land_ones by lia. apply Z.mod_mul.
  apply Z.pow_nonzero; lia.
Qed.

Lemma build_arbitration_id_sum (m p t d : Z) :
  is_byte p -> is_byte t -> is_byte d ->
  build_arbitration_id m p t d = m * 16777216 + p * 65536 + t * 256 + d.
Proof.
  unfold is_byte, build_arbitration_id. intros Hp Ht Hd.
  rewrite !Z.shiftl_mul_pow2 by lia.
  change (2 ^ 24) with 16777216. change (2 ^ 16) with 65536. change (2 ^ 8) with 256.
  rewrite (lor_disjoint_add (m * 16777216) (p * 65536) 24); try lia.
  2: { apply (low_bits_zero _ m); [lia | reflexivity]. }
  rewrite (lor_disjoint_add _ (t * 256) 16); try lia.
  2: { apply (low_bits_zero _ (m * 256 + p)); [lia |]. change (2 ^ 16) with 65536. lia. }
  rewrite (lor_disjoint_add _ d 8); try lia.
  apply (low_bits_zero _ (m * 65536 + p * 256 + t)); [lia |]. change (2 ^ 8) with 256. lia.
Qed.

Lemma get_message_id_build (m p t d : Z) :
  is_byte p -> is_byte t -> is_byte d ->
  get_message_id (build_arbitration_id m p t d) = m.
Proof.
  intros Hp Ht Hd. rewrite build_arbitration_id_sum by assumption.
  unfold get_message_id, is_byte in *. rewrite Z.shiftr_div_pow2 by lia.
  change (2 ^ 24) with 16777216. Z.div_mod_to_equations. lia.
Qed.

Lemma get_message_priority_build (m p t d : Z) :
  is_byte p -> is_byte t -> is_byte d ->
  get_message_priority (build_arbitration_id m p t d) = p.
Proof.
  intros Hp Ht Hd. rewrite build_arbitration_id_sum by assumption.
  unfold get_message_priority, is_byte in *. rewrite Z.shiftr_div_pow2 by lia.
  change 0xff with (Z.ones 8). rewrite Z.land_ones by lia.
  change (2 ^ 16) with 65536. change (2 ^ 8) with 256.
  Z.div_mod_to_equations. lia.
Qed.

Lemma get_message_device_id_build (m p t d : Z) :
  is_byte p -> is_byte t -> is_byte d ->
  get_message_device_id (build_arbitration_id m p t d) = d.
Proof.
  intros Hp Ht Hd. rewrite build_arbitration_id_sum by assumption.
  unfold get_message_device_id, is_byte in *.
  change 0xff with (Z.ones 8). rewrite Z.land_ones by lia.
  change (2 ^ 8) with 256. Z.div_mod_to_equations. lia.
Qed.

(** What the 12-bit mask of [get_message_device_type] lets through: the
    device type and, above it, the low four bits of the priority. *)
Lemma get_message_device_type_build (m p t d : Z) :
  is_byte p -> is_byte t -> is_byte d ->
  get_message_device_type (build_arbitration_id m p t d) = (p mod 16) * 256 + t.
Proof.
  intros Hp Ht Hd. rewrite build_arbitration_id_sum by assumption.
  unfold get_message_device_type, is_byte in *. rewrite Z.shiftr_div_pow2 by lia.
  change 0xfff with (Z.ones 12). rewrite Z.land_ones by lia.
  change (2 ^ 8) with 256. change (2 ^ 12) with 4096.
  Z.div_mod_to_equations. lia.
Qed.

(** The fields that [Message.__init__] extracts, with the 8-bit mask on
    the device type, do give back the four components. *)
Lemma Message_init_fields (m p t d op : Z) :
  is_byte p -> is_byte t -> is_byte d ->
  let msg := Message_init (build_arbitration_id m p t d) op in
  message_id msg = m /\ priority msg = p /\ device_type msg = t /\ device_id msg = d.
Proof.
  intros Hp Ht Hd. cbn.
  pose proof (get_message_id_build m p t d Hp Ht Hd) as H1.
  pose proof (get_message_priority_build m p t d Hp Ht Hd) as H2.
  pose proof (get_message_device_id_build m p t d Hp Ht Hd) as H4.
  unfold get_message_id, get_message_priority, get_message_device_id in *.
  repeat split; try assumption.
  rewrite build_arbitration_id_sum by assumption.
  unfold is_byte in *. rewrite Z.shiftr_div_pow2 by lia.
  change 0xff with (Z.ones 8). rewrite Z.land_ones by lia.
  change (2 ^ 8) with 256. Z.div_mod_to_equations. lia.
Qed.

(** C2 (code as written): at message kind [0x1f], priority 1, device type
    1, device id 2, [build_arbitration_id] gives [0x1f010102]; three of
    the extractors return their component, [get_message_device_type]
    returns 257 where the tuple has 1. *)
Theorem C2_device_type_not_recovered :
  let id32 := build_arbitration_id 0x1f 1 1 2 in
  id32 = 0x1f010102 /\
  get_message_id id32 = 0x1f /\
  get_message_priority id32 = 1 /\
  get_message_device_id id32 = 2 /\
  get_message_device_type id32 = 257 /\
  get_message_device_type id32 <> 1.
Proof. cbv. repeat split; congruence. Qed.

(** ** Dispatcher identifiers *)

Lemma dispatcher_arbitration_id_build (device : Device) :
  Z.lor (Z.lor (Z.shiftl _prio 16) (Z.shiftl (Device_device_type device) 8))
        (Device_device_id device)
  = build_arbitration_id 0x1f 0xe0 (Device_device_type device) (Device_device_id device).
Proof. reflexivity. Qed.

Lemma PeriodicRequest_OneTimeRequest_same_id (device : Device) (operation : Z)
      (function_name : string) :
  otr_arbitration_id (OneTimeRequest_init device operation function_name)
  = pr_arbitration_id (PeriodicRequest_init device).
Proof. reflexivity. Qed.

(** C4 (as stated, refuted): for the device of type 1 and id 2 the
    identifier is [0x1fe00102]; its priority field, bits 23-16, reads 224,
    not 8160, whichever decoder is used. *)
Lemma C4_priority_field_is_not_8160 :
  let id32 := pr_arbitration_id
                (PeriodicRequest_init {| Device_device_id := 2; Device_device_type := 1 |}) in
  id32 = 0x1fe00102 /\
  get_message_priority id32 = 224 /\
  get_message_priority id32 <> 8160 /\
  priority (Message_init id32 0x40) <> 8160.
Proof. cbv. repeat split; congruence. Qed.

(** C4 (amended): for a device whose type and id fit their 8-bit fields,
    the identifier computed by [PeriodicRequest] and by [OneTimeRequest]
    from the constant 8160 decodes to message kind [0x1f], the high byte
    of 8160, priority [0xe0] = 224, its low byte, and the device's type
    and id. *)
Theorem C4_dispatcher_arbitration_id_fields (device : Device) (operation : Z)
        (function_name : string) :
  is_byte (Device_device_type device) ->
  is_byte (Device_device_id device) ->
  let id32 := pr_arbitration_id (PeriodicRequest_init device) in
  otr_arbitration_id (OneTimeRequest_init device operation function_name) = id32 /\
  get_message_id id32 = 0x1f /\
  get_message_priority id32 = 0xe0 /\
  get_message_device_type id32 = Device_device_type device /\
  get_message_device_id id32 = Device_device_id device /\
  device_type (Message_init id32 operation) = Device_device_type device /\
  0x1f * 256 + 0xe0 = _prio.
Proof.
  intros Ht Hd id32.
  assert (Hp : is_byte 0xe0) by (unfold is_byte; lia).
  assert (Hid : id32 = build_arbitration_id 0x1f 0xe0 (Device_device_type device)
                                            (Device_device_id device))
    by reflexivity.
  split; [reflexivity |].
  rewrite Hid.
  split; [apply get_message_id_build; assumption |].
  split; [apply get_message_priority_build; assumption |].
  split; [rewrite get_message_device_type_build by assumption; reflexivity |].
  split; [apply get_message_device_id_build; assumption |].
  split; [| reflexivity].
  apply (Message_init_fields 0x1f 0xe0 _ _ operation Hp Ht Hd).
Qed.

Lemma C4_dispatcher_arbitration_id_fields_witness :
  let device := {| Device_device_id := 2; Device_device_type := 1 |} in
  let id32 := pr_arbitration_id (PeriodicRequest_init device) in
  otr_arbitration_id (OneTimeRequest_init device 0x46 "roomTemp") = id32 /\
  get_message_id id32 = 0x1f /\
  get_message_priority id32 = 0xe0 /\
  get_message_device_type id32 = 1 /\
  get_message_device_id id32 = 2 /\
  device_type (Message_init id32 0x46) = 1 /\
  0x1f * 256 + 0xe0 = _prio.
Proof.
  apply (C4_dispatcher_arbitration_id_fields
           {| Device_device_id := 2; Device_device_type := 1 |} 0x46 "roomTemp");
    unfold is_byte; simpl; lia.
Defined.

(** ** Outbound frames *)

Section OutboundProperties.
Context `{V : Values}.

Lemma bytearray_append_Return (b : list Z) (x : Z) (b' : list Z) :
  bytearray_append b x = Return b' -> b' = b ++ [x].
Proof.
  unfold bytearray_append. destruct ((0 <=? x) && (x <? 256)); congruence.
Qed.

Lemma bytearray_extend_Return (b xs b' : list Z) :
  bytearray_extend b xs = Return b' -> b' = b ++ xs.
Proof.
  unfold bytearray_extend. destruct (forallb _ xs); congruence.
Qed.

Lemma SendMessage_init_header (arb op : Z) (dp : Datapoint) (m : SendMessage) :
  SendMessage_init arb op dp = Return m ->
  header_data m
  = [1; op; function_group dp; function_number dp] ++ get_datapoint_by_bytes dp
  /\ data (sm_base m) = []
  /\ arbitration_id (sm_base m) = arb.
Proof.
  unfold SendMessage_init, _put_header. cbn [header_data sm_message_len sm_base].
  destruct (bytearray_append [] 1) as [h1|] eqn:E1; cbn; [| discriminate].
  destruct (bytearray_append h1 _) as [h2|] eqn:E2; cbn; [| discriminate].
  destruct (bytearray_append h2 _) as [h3|] eqn:E3; cbn; [| discriminate].
  destruct (bytearray_append h3 _) as [h4|] eqn:E4; cbn; [| discriminate].
  destruct (bytearray_extend h4 _) as [h5|] eqn:E5; cbn; [| discriminate].
  intros [= <-]. cbn.
  apply bytearray_append_Return in E1, E2, E3, E4.
  apply bytearray_extend_Return in E5.
  subst. auto.
Qed.

Lemma SendMessage_put_data_frame (m m' : SendMessage) (d : list Z) :
  SendMessage_put_data m d = Return m' ->
  header_data m' = header_data m
  /\ arbitration_id (sm_base m') = arbitration_id (sm_base m).
Proof.
  unfold SendMessage_put_data.
  destruct (negb (_is_valid (sm_base m))); cbn.
  - intros [= <-]. auto.
  - destruct (bytearray_extend _ d); cbn; [| discriminate].
    intros [= <-]. auto.
Qed.

Lemma put_data_all_frame (ds : list (list Z)) (m m' : SendMessage) :
  put_data_all m ds = Return m' ->
  header_data m' = header_data m
  /\ arbitration_id (sm_base m') = arbitration_id (sm_base m).
Proof.
  revert m. induction ds as [| d ds IH]; intros m; cbn.
  - intros [= <-]. auto.
  - destruct (SendMessage_put_data m d) as [m1|] eqn:E; cbn; [| discriminate].
    intros Hall. apply SendMessage_put_data_frame in E as [E1 E2].
    apply IH in Hall as [H1 H2]. split; congruence.
Qed.

(** C6: a [SendMessage], built by [__init__] and filled by any number
    of [put_data] calls, has a 6-byte header; [to_can_message] raises
    [NoValidMessageException] ("Message is too long"), returning no
    frame, exactly when its payload is longer than 2 bytes, i.e. header
    plus payload exceed 8; otherwise it returns the extended-id frame
    whose data is the header followed by the payload. *)
Theorem C6_to_can_message_size_guard (arb op : Z) (dp : Datapoint)
        (ds : list (list Z)) (m0 m : SendMessage) :
  SendMessage_init arb op dp = Return m0 ->
  put_data_all m0 ds = Return m ->
  let payload := data (sm_base m) in
  length (header_data m) = 6%nat /\
  (to_can_message m = Raise NoValidMessageException
   <-> (length (header_data m) + length payload > 8)%nat) /\
  ((length (header_data m) + length payload > 8)%nat <-> (length payload > 2)%nat) /\
  ((length payload <= 2)%nat ->
   to_can_message m
   = Return {| can.arbitration_id := arb;
               can.data := header_data m ++ payload;
               can.is_extended_id := true |}).
Proof.
  intros Hinit Hput payload.
  apply SendMessage_init_header in Hinit as (Hh & _ & Harb).
  apply put_data_all_frame in Hput as (Hh' & Harb').
  assert (Hlen : length (header_data m) = 6%nat) by (rewrite Hh', Hh; reflexivity).
  split; [exact Hlen |].
  unfold to_can_message, _message_size. fold payload. rewrite Hlen.
  split; [| split].
  - destruct (Z.gtb_spec (Z.of_nat (length payload) + Z.of_nat 6) 8); split;
      intros; try reflexivity; try discriminate; lia.
  - lia.
  - intros Hle.
    destruct (Z.gtb_spec (Z.of_nat (length payload) + Z.of_nat 6) 8); [lia |].
    cbn. rewrite Harb', Harb. reflexivity.
Qed.
End OutboundProperties.

(** ** Inbound messages: the parse step *)

Section ReceiveProperties.
Context `{V : Values} {DT : Datatypes} {REG : Registry}.

Lemma Operation_of_value_valid (op : Z) :
  Z_in op Operation_list = true ->
  exists o, Operation_of_value op = Return o /\ Operation_value o = op.
Proof.
  unfold Z_in, Operation_list, Operation_of_value. cbn.
  rewrite !orb_true_iff.
  intros [E | [E | [E | E]]]; try discriminate;
    apply Z.eqb_eq in E; subst op; cbn; eauto.
Qed.

(** Bytes only enter a message whose operation code is known. *)
Lemma reassembled_data_valid (m : ReceiveMessage) :
  reassembled m -> data (rm_base m) <> [] -> _is_valid (rm_base m) = true.
Proof.
  induction 1 as [arb op len | m d Hm IH | m d Hm IH].
  - cbn. congruence.
  - unfold put_data. destruct (negb (_is_valid (rm_base m))) eqn:E.
    + exact IH.
    + intros _. apply negb_false_iff in E. exact E.
  - unfold put_extended_data. destruct (negb (_is_valid (rm_base m))) eqn:E.
    + exact IH.
    + intros _. apply negb_false_iff in E. exact E.
Qed.

Lemma length_ge_6_nonempty (l : list Z) : (6 <= length l)%nat -> l <> [].
Proof. destruct l; cbn; [lia | congruence]. Qed.

(** The outcome of [parse] once the buffer holds the 6 header bytes and
    the registry knows the datapoint. *)
Lemma ReceiveMessage_parse_known (m : ReceiveMessage) (dp : Datapoint) :
  let d := data (rm_base m) in
  (6 <= length d)%nat ->
  get_datapoint_by_id (nth 2 d 0) (nth 3 d 0) (int_from_bytes_big (take 2 (drop 4 d)))
  = Some dp ->
  let v := convert_from_bytes (get_datapoint_type dp) (drop 6 d) in
  snd (ReceiveMessage_parse m)
  = if match get_datapoint_limits dp with
       | Some limits =>
           match limits !! "lower"%string, limits !! "upper"%string with
           | Some lower, Some upper => value_ltb v lower || value_ltb upper v
           | _, _ => false
           end
       | None => false
       end
    then Raise NoValidMessageException
    else operation ← Operation_of_value (operation_id (rm_base m));
         mret (dp, operation, v).
Proof.
  intros d Hlen Hdp v. unfold ReceiveMessage_parse. fold d.
  destruct (Nat.ltb_spec (length d) 6); [lia |].
  cbn [snd]. rewrite Hdp. reflexivity.
Qed.

(** C5: for a reassembled message of at least 6 bytes whose datapoint
    declares both limits, [ReceiveMessage.parse] raises
    [NoValidMessageException] exactly when the decoded value is strictly
    below "lower" or strictly above "upper"; otherwise it returns the
    datapoint, the operation and the value, in particular for a value
    equal to either bound of a non-empty range. *)
Theorem C5_limits_enforcement (m : ReceiveMessage) (dp : Datapoint)
        (limits : gmap string value) (lower upper : value) :
  reassembled m ->
  let d := data (rm_base m) in
  (6 <= length d)%nat ->
  get_datapoint_by_id (nth 2 d 0) (nth 3 d 0) (int_from_bytes_big (take 2 (drop 4 d)))
  = Some dp ->
  get_datapoint_limits dp = Some limits ->
  limits !! "lower"%string = Some lower ->
  limits !! "upper"%string = Some upper ->
  let v := convert_from_bytes (get_datapoint_type dp) (drop 6 d) in
  (snd (ReceiveMessage_parse m) = Raise NoValidMessageException
   <-> value_ltb v lower = true \/ value_ltb upper v = true) /\
  (value_ltb v lower = false -> value_ltb upper v = false ->
   exists operation,
     Operation_value operation = operation_id (rm_base m) /\
     snd (ReceiveMessage_parse m) = Return (dp, operation, v)) /\
  (value_ltb upper lower = false -> v = lower \/ v = upper ->
   exists operation,
     snd (ReceiveMessage_parse m) = Return (dp, operation, v)).
Proof.
  intros Hm d Hlen Hdp Hlim Hlo Hup v.
  pose proof (ReceiveMessage_parse_known m dp Hlen Hdp) as Hparse.
  cbn zeta in Hparse. fold d v in Hparse.
  rewrite Hlim, Hlo, Hup in Hparse.
  assert (Hvalid : _is_valid (rm_base m) = true)
    by (apply reassembled_data_valid; [exact Hm | apply length_ge_6_nonempty; exact Hlen]).
  apply Operation_of_value_valid in Hvalid as (o & Ho & Hov).
  rewrite Ho in Hparse. cbn in Hparse.
  assert (Hin : value_ltb v lower = false -> value_ltb upper v = false ->
                snd (ReceiveMessage_parse m) = Return (dp, o, v)).
  { intros E1 E2. rewrite Hparse, E1, E2. reflexivity. }
  split; [| split].
  - rewrite Hparse.
    destruct (value_ltb v lower) eqn:E1; cbn.
    + split; auto.
    + destruct (value_ltb upper v) eqn:E2; cbn.
      * split; auto.
      * split; [discriminate | intros [?|?]; discriminate].
  - intros E1 E2. exists o. auto.
  - intros Hrange [-> | ->]; exists o; apply Hin;
      auto using value_ltb_irrefl.
Qed.
End ReceiveProperties.

(** ** Width dispatch *)

Section WidthDispatch.
Context `{V : Values} {REG : Registry}.

(** C7: on a buffer of at least 6 bytes, [ReceiveMessage.parse] logs
    one record whose candidate list holds exactly the three decodes
    [Signed(8n, 1)], [Unsigned(8n, 1)] and [List()] when the value slice
    has length n = 1, 2 or 4, and the [List()] decode alone for any other
    length.  For a reassembled message whose datapoint is registered the
    outcome is decided by the declared type alone: [parse] returns the
    datapoint, the operation and the decode of the slice by the declared
    type, unless that very value violates the declared limits, in which
    case it raises [NoValidMessageException].  A returned value is always
    that decode, and the outcome is the same whatever the candidate
    decoders are. *)
Theorem C7_width_dispatch (DT : Datatypes) (m : ReceiveMessage) :
  let d := data (rm_base m) in
  let slice := drop 6 d in
  let n := length slice in
  (6 <= length d)%nat ->
  (exists datapoints,
     fst (ReceiveMessage_parse m)
     = [LogDebugFLO (nth 2 d 0) (nth 3 d 0) (int_from_bytes_big (take 2 (drop 4 d)))
                    datapoints slice n] /\
     ((n = 1 \/ n = 2 \/ n = 4)%nat ->
      datapoints = [convert_from_bytes (Signed (8 * Z.of_nat n) 1) slice;
                    convert_from_bytes (Unsigned (8 * Z.of_nat n) 1) slice;
                    convert_from_bytes List_ slice]) /\
     (~ (n = 1 \/ n = 2 \/ n = 4)%nat ->
      datapoints = [convert_from_bytes List_ slice])) /\
  (forall dp,
     reassembled m ->
     get_datapoint_by_id (nth 2 d 0) (nth 3 d 0) (int_from_bytes_big (take 2 (drop 4 d)))
     = Some dp ->
     let declared := convert_from_bytes (get_datapoint_type dp) slice in
     exists operation,
       Operation_value operation = operation_id (rm_base m) /\
       snd (ReceiveMessage_parse m)
       = if limits_violated dp declared then Raise NoValidMessageException
         else Return (dp, operation, declared)) /\
  (forall dp operation v,
     snd (ReceiveMessage_parse m) = Return (dp, operation, v) ->
     get_datapoint_by_id (nth 2 d 0) (nth 3 d 0) (int_from_bytes_big (take 2 (drop 4 d)))
     = Some dp /\
     v = convert_from_bytes (get_datapoint_type dp) slice) /\
  (forall DT' : Datatypes,
     snd (ReceiveMessage_parse (DT := DT') m) = snd (ReceiveMessage_parse (DT := DT) m)).
Proof.
  intros d slice n Hlen.
  split; [| split; [| split]].
  - unfold ReceiveMessage_parse. fold d. fold slice. fold n.
    destruct (Nat.ltb_spec (length d) 6); [lia |].
    cbn [fst snd].
    eexists. split; [reflexivity |]. split.
    + intros [E | [E | E]]; rewrite E; reflexivity.
    + intros Hn.
      destruct (Nat.eqb_spec n 1); [tauto |].
      destruct (Nat.eqb_spec n 2); [tauto |].
      destruct (Nat.eqb_spec n 4); [tauto |].
      reflexivity.
  - intros dp Hm Hdp declared.
    pose proof (@ReceiveMessage_parse_known V DT REG m dp Hlen Hdp) as Hparse.
    cbn zeta in Hparse. fold d slice declared in Hparse.
    assert (Hvalid : _is_valid (rm_base m) = true)
      by (apply reassembled_data_valid;
          [exact Hm | apply length_ge_6_nonempty; exact Hlen]).
    apply Operation_of_value_valid in Hvalid as (o & Ho & Hov).
    exists o. split; [exact Hov |].
    rewrite Hparse, Ho. unfold limits_violated.
    destruct (get_datapoint_limits dp) as [limits |]; [| reflexivity].
    destruct (limits !! "lower"%string), (limits !! "upper"%string); reflexivity.
  - unfold ReceiveMessage_parse. fold d. fold slice. fold n.
    destruct (Nat.ltb_spec (length d) 6); [lia |].
    cbn [fst snd].
    intros dp operation v.
    destruct (get_datapoint_by_id _ _ _) as [dp' |]; [| discriminate].
    match goal with |- context [if ?c then _ else _] => destruct c end;
      [discriminate |].
    destruct (Operation_of_value _); cbn; [| discriminate].
    intros [= <- <- <-]. auto.
  - intros DT'. unfold ReceiveMessage_parse. fold d.
    destruct (Nat.ltb_spec (length d) 6); reflexivity.
Qed.
End WidthDispatch.

(** ** The response parser *)

Section ParserProperties.
Context `{V : Values} {DT : Datatypes} {REG : Registry}.

Ltac unfold_M :=
  unfold mbind, M_bind, mret, M_ret, lift, lift_logged, logging,
    get_devices, get_pending_msg, set_devices, set_pending_msg in *.

Ltac no_message_entry :=
  match goal with
  | Hs : pending_all_sets ?s, H : _pending_msg ?s !! _ = Some (OMessage _) |- _ =>
      destruct (Hs _ _ H) as [? ?]; discriminate
  end.

Lemma OPERATIONS_at_RESPONSE : OPERATIONS_at "RESPONSE" = 0x42.
Proof. reflexivity. Qed.

Lemma OPERATIONS_values_Operation_list : OPERATIONS_values = Operation_list.
Proof. reflexivity. Qed.

Lemma ResponseParser_parse_short (s : ResponseParser) (msg : can.Message) :
  (length (can.data msg) < 2)%nat ->
  ResponseParser_parse msg s = (s, [LogError "Message too small"], Return None).
Proof.
  intros Hlen. unfold ResponseParser_parse.
  destruct (Nat.ltb_spec (length (can.data msg)) 2); [| lia].
  reflexivity.
Qed.

(** C8: a frame with fewer than 2 payload bytes makes [parse] return
    [None], logging the error, with the device table and the pending
    table as they were: nothing is registered for it. *)
Theorem C8_short_frame_rejected_before_registration
        (s : ResponseParser) (msg : can.Message) :
  (length (can.data msg) < 2)%nat ->
  ResponseParser_parse msg s = (s, [LogError "Message too small"], Return None) /\
  _devices (fst (fst (ResponseParser_parse msg s))) = _devices s.
Proof.
  intros Hlen. rewrite ResponseParser_parse_short by exact Hlen. split; reflexivity.
Qed.

(** [parse] either leaves the device table alone or adds the frame's
    device under a [device_id] that was free. *)
Lemma ResponseParser_parse_devices (s : ResponseParser) (msg : can.Message) :
  let s' := fst (fst (ResponseParser_parse msg s)) in
  let id := get_message_device_id (can.arbitration_id msg) in
  _devices s' = _devices s
  \/ (_devices s !! id = None /\
      _devices s'
      = <[id := {| Device_device_id := id;
                   Device_device_type :=
                     device_type (Message_init (can.arbitration_id msg) 0) |}]>
          (_devices s)).
Proof.
  unfold ResponseParser_parse, obj_parse_data, Message3, get_message_device_id.
  unfold_M.
  repeat case_match; simplify_eq; cbn in *; auto.
Qed.

Lemma ResponseParser_parse_devices_lookup (s : ResponseParser) (msg : can.Message)
      (k : Z) (d : Device) :
  _devices s !! k = Some d ->
  _devices (fst (fst (ResponseParser_parse msg s))) !! k = Some d.
Proof.
  intros Hk.
  destruct (ResponseParser_parse_devices s msg) as [-> | [Hfree ->]]; [exact Hk |].
  rewrite lookup_insert_ne; [exact Hk |]. congruence.
Qed.

Lemma feed_devices_lookup (msgs : list can.Message) (s : ResponseParser)
      (k : Z) (d : Device) :
  _devices s !! k = Some d -> _devices (fst (feed s msgs)) !! k = Some d.
Proof.
  revert s. induction msgs as [| msg msgs IH]; intros s Hk; cbn; [exact Hk |].
  pose proof (ResponseParser_parse_devices_lookup s msg k d Hk) as H1.
  destruct (ResponseParser_parse msg s) as [[s1 lg] r]. cbn in H1.
  specialize (IH s1 H1). destruct (feed s1 msgs) as [s2 rs]. exact IH.
Qed.

(** C10: the device table is keyed by [device_id] alone.  When the
    [device_id] of a frame is already a key, [parse] leaves the table as
    it is, whatever the frame's [device_type]; and an entry, once made,
    is what its key maps to after any further frames, so no second
    device is registered under that [device_id]. *)
Theorem C10_device_table_keyed_by_device_id
        (s : ResponseParser) (msg : can.Message) (d : Device) :
  _devices s !! (get_message_device_id (can.arbitration_id msg)) = Some d ->
  _devices (fst (fst (ResponseParser_parse msg s))) = _devices s /\
  (forall msgs : list can.Message,
     _devices (fst (feed s msgs)) !! (get_message_device_id (can.arbitration_id msg))
     = Some d).
Proof.
  intros Hk. split.
  - destruct (ResponseParser_parse_devices s msg) as [E | [Hfree _]]; [exact E |].
    congruence.
  - intros msgs. apply feed_devices_lookup. exact Hk.
Qed.

(** *** What the pending table holds and what continuation frames get *)

Lemma pending_all_sets_init : pending_all_sets ResponseParser_init.
Proof. intros k o. cbn. rewrite lookup_empty. discriminate. Qed.

Lemma ResponseParser_parse_all_sets (s : ResponseParser) (msg : can.Message) :
  pending_all_sets s -> pending_all_sets (fst (fst (ResponseParser_parse msg s))).
Proof.
  intros Hs.
  assert (Hins : forall k0 m dv,
             pending_all_sets {| _pending_msg := <[k0 := OSet [m]]> (_pending_msg s);
                                 _devices := dv |}).
  { intros k0 m dv k o. cbn. rewrite lookup_insert.
    case_decide; [intros [= <-]; eauto | apply Hs]. }
  unfold ResponseParser_parse, obj_parse_data, obj_put, Message3.
  unfold_M.
  repeat case_match; simplify_eq; cbn in *; auto;
    try no_message_entry.
Qed.

(** With only set literals in the table, a continuation frame (message
    kind other than [0x1f]) never completes a message: it finds no
    entry, or the entry it finds has no [put]. *)
Lemma continuation_frame_outcome (s : ResponseParser) (msg : can.Message) :
  pending_all_sets s ->
  get_message_id (can.arbitration_id msg) <> 0x1f ->
  snd (ResponseParser_parse msg s) = Return None
  \/ snd (ResponseParser_parse msg s) = Raise AttributeError.
Proof.
  intros Hs Hid. unfold get_message_id in Hid.
  unfold ResponseParser_parse, obj_parse_data, obj_put, Message3.
  unfold_M.
  repeat case_match; simplify_eq; cbn in *; auto;
    try no_message_entry;
    try (match goal with
         | H : (_ =? 31) = true |- _ => apply Z.eqb_eq in H; contradiction
         end).
Qed.

(** A first frame that announces continuation frames is stored, under
    its operation code and wrapped in a set; nothing is returned. *)
Lemma first_frame_stored_under_operation_id (s : ResponseParser) (msg : can.Message) :
  (2 <= length (can.data msg))%nat ->
  Z_in (nth 1 (can.data msg) 0) OPERATIONS_values = true ->
  get_message_id (can.arbitration_id msg) = 0x1f ->
  Z.shiftr (nth 0 (can.data msg) 0) 3 <> 0 ->
  snd (ResponseParser_parse msg s) = Return None /\
  _pending_msg (fst (fst (ResponseParser_parse msg s)))
  = <[nth 1 (can.data msg) 0 :=
        OSet [Message3 (can.arbitration_id msg)
                       (Z.shiftr (nth 0 (can.data msg) 0) 3)
                       (nth 1 (can.data msg) 0)]]> (_pending_msg s).
Proof.
  intros Hlen Hop Hid Hn. unfold get_message_id in Hid.
  unfold ResponseParser_parse, Message3. unfold_M.
  destruct (Nat.ltb_spec (length (can.data msg)) 2); [lia |].
  cbn [rm_base ReceiveMessage_init Message_init operation_id message_id message_len].
  rewrite Hop, Hid.
  destruct (Z.eqb_spec (Z.shiftr (nth 0 (can.data msg) 0) 3) 0); [contradiction |].
  repeat case_match; simplify_eq; cbn; auto.
Qed.

(** C1 (code as written): the two frames of scenario 1, fed in order to
    a fresh parser, produce no result, neither after the first frame nor
    after the final one.  The first frame is stored under its operation
    code [0x42], not under its first payload byte [0x08], and as a set
    literal; the continuation looks up [0x08] and finds nothing.  A
    continuation whose first byte is [0x42] finds the set and raises
    [AttributeError]. *)
Theorem C1_two_frame_sequence_yields_no_result :
  snd (feed ResponseParser_init [scenario_first_frame; scenario_continuation])
  = [Return None; Return None] /\
  _pending_msg (fst (feed ResponseParser_init [scenario_first_frame]))
  = {[ 0x42 := OSet [Message3 0x1f000102 1 0x42] ]} /\
  _pending_msg (fst (feed ResponseParser_init [scenario_first_frame])) !! 0x08 = None /\
  snd (feed ResponseParser_init [scenario_first_frame; continuation_on_operation_key])
  = [Return None; Raise AttributeError].
Proof. repeat split; vm_compute; reflexivity. Qed.

(** With only set literals in the table, a frame that belongs to a
    multi-frame message, first or continuation, never yields a result. *)
Lemma multi_frame_no_result (s : ResponseParser) (msg : can.Message) (r : parsed) :
  pending_all_sets s ->
  get_message_id (can.arbitration_id msg) <> 0x1f
  \/ Z.shiftr (nth 0 (can.data msg) 0) 3 <> 0 ->
  snd (ResponseParser_parse msg s) <> Return (Some r).
Proof.
  intros Hs [Hid | Hn].
  - destruct (continuation_frame_outcome s msg Hs Hid) as [-> | ->]; discriminate.
  - unfold ResponseParser_parse, obj_parse_data, obj_put, Message3.
    unfold_M.
    repeat case_match; simplify_eq; cbn in *; try discriminate;
      try no_message_entry;
      try (match goal with
           | H : (_ =? 0) = true |- _ => apply Z.eqb_eq in H; contradiction
           end).
Qed.

(** From a fresh parser on, whatever frames are fed: the table holds set
    literals only, and every result comes from a single-frame message. *)
Lemma feed_all_sets (msgs : list can.Message) (s : ResponseParser) :
  pending_all_sets s -> pending_all_sets (fst (feed s msgs)).
Proof.
  revert s. induction msgs as [| msg msgs IH]; intros s Hs; cbn; [exact Hs |].
  pose proof (ResponseParser_parse_all_sets s msg Hs) as H1.
  destruct (ResponseParser_parse msg s) as [[s1 lg] r]. cbn in H1.
  specialize (IH s1 H1). destruct (feed s1 msgs) as [s2 rs]. exact IH.
Qed.

Lemma feed_results_single_frame (msgs : list can.Message) (s : ResponseParser)
      (i : nat) (msg : can.Message) (r : parsed) :
  pending_all_sets s ->
  msgs !! i = Some msg ->
  snd (feed s msgs) !! i = Some (Return (Some r)) ->
  get_message_id (can.arbitration_id msg) = 0x1f
  /\ Z.shiftr (nth 0 (can.data msg) 0) 3 = 0.
Proof.
  revert s i. induction msgs as [| m0 msgs IH]; intros s i Hs Hi Hr; [discriminate |].
  cbn in Hr.
  pose proof (ResponseParser_parse_all_sets s m0 Hs) as H1.
  pose proof (multi_frame_no_result s m0 r Hs) as Hno.
  destruct (ResponseParser_parse m0 s) as [[s1 lg] r0]. cbn in H1, Hno.
  destruct (feed s1 msgs) as [s2 rs] eqn:Ef.
  destruct i as [| i]; cbn in *.
  - injection Hi as <-. injection Hr as ->.
    destruct (Z.eq_dec (get_message_id (can.arbitration_id m0)) 31);
      destruct (Z.eq_dec (Z.shiftr (nth 0 (can.data m0) 0) 3) 0); auto;
      exfalso; apply Hno; auto.
  - apply (IH s1 i H1 Hi). rewrite Ef. exact Hr.
Qed.

(** A complete single-frame message whose operation is a request gets no
    further than the debug line: [str + tuple] raises [TypeError] when
    the parse step returned, and what the parse step raised comes out
    otherwise. *)
Lemma single_frame_request_raises (s : ResponseParser) (msg : can.Message) :
  (2 <= length (can.data msg))%nat ->
  get_message_id (can.arbitration_id msg) = 0x1f ->
  Z.shiftr (nth 0 (can.data msg) 0) 3 = 0 ->
  nth 1 (can.data msg) 0 = 0x40 \/ nth 1 (can.data msg) 0 = 0x46 ->
  raises (snd (ResponseParser_parse msg s)).
Proof.
  intros Hlen Hid Hn Hop. unfold get_message_id in Hid. unfold raises.
  unfold ResponseParser_parse, Message3, parse_data, put. unfold_M.
  destruct (Nat.ltb_spec (length (can.data msg)) 2); [lia |].
  cbn [rm_base ReceiveMessage_init Message_init operation_id message_id message_len].
  rewrite Hid, Hn, OPERATIONS_at_RESPONSE.
  destruct Hop as [-> | ->]; cbn;
    repeat case_match; simplify_eq; cbn in *; eauto.
Qed.

Lemma ReceiveMessage_parse_operation (m : ReceiveMessage) (r : parsed) :
  snd (ReceiveMessage_parse m) = Return r ->
  Operation_of_value (operation_id (rm_base m)) = Return (snd (fst r)).
Proof.
  unfold ReceiveMessage_parse.
  destruct (length (data (rm_base m)) <? 6)%nat; cbn [snd]; [discriminate |].
  destruct (get_datapoint_by_id _ _ _) as [dp |]; [| discriminate].
  match goal with |- context [if ?c then _ else _] => destruct c end;
    [discriminate |].
  destruct (Operation_of_value _); cbn; [| discriminate].
  intros [= <-]. reflexivity.
Qed.

Lemma parsed_RESPONSE (m : ReceiveMessage) (r : parsed) :
  (operation_id (rm_base m) =? OPERATIONS_at "RESPONSE") = true ->
  snd (ReceiveMessage_parse m) = Return r ->
  snd (fst r) = RESPONSE /\
  exists m', operation_id (rm_base m') = Operation_value RESPONSE /\
             snd (ReceiveMessage_parse m') = Return r.
Proof.
  rewrite OPERATIONS_at_RESPONSE. intros Hop Hr. apply Z.eqb_eq in Hop.
  split.
  - apply ReceiveMessage_parse_operation in Hr. rewrite Hop in Hr.
    cbn in Hr. congruence.
  - exists m. auto.
Qed.

(** C3 (amended): a result that [parse] returns comes from the parse
    step of a message whose operation is RESPONSE, and carries that
    operation; for a complete single-frame RESPONSE message [parse]
    hands on the outcome of the parse step, its result or the exception
    it raised, which [parse] does not catch; a frame that is too short,
    has an unknown operation code, or continues no pending message
    returns [None] without raising. *)
Theorem C3_results_surface_only_for_RESPONSE (s : ResponseParser) (msg : can.Message) :
  let d := can.data msg in
  let arb := can.arbitration_id msg in
  let out := snd (ResponseParser_parse msg s) in
  (forall r, out = Return (Some r) ->
     snd (fst r) = RESPONSE /\
     exists m, operation_id (rm_base m) = Operation_value RESPONSE /\
               snd (ReceiveMessage_parse m) = Return r) /\
  ((2 <= length d)%nat -> get_message_id arb = 0x1f ->
   Z.shiftr (nth 0 d 0) 3 = 0 -> nth 1 d 0 = Operation_value RESPONSE ->
   out = match snd (ReceiveMessage_parse
                      (put_data (ReceiveMessage_init arb (Operation_value RESPONSE) 0) d))
         with
         | Return r => Return (Some r)
         | Raise e => Raise e
         end) /\
  ((length d < 2)%nat -> out = Return None) /\
  ((2 <= length d)%nat -> Z_in (nth 1 d 0) OPERATIONS_values = false ->
   ResponseParser_parse msg s = (s, [], Return None)) /\
  ((2 <= length d)%nat -> get_message_id arb <> 0x1f ->
   _pending_msg s !! nth 0 d 0 = None -> out = Return None).
Proof.
  intros d arb out. subst d arb out.
  split; [| split; [| split; [| split]]].
  - intros r Hr. revert Hr.
    unfold ResponseParser_parse, obj_parse_data, obj_operation_id, obj_put,
      Message3, parse_data, put.
    unfold_M.
    repeat case_match; simplify_eq; cbn in *; intros; simplify_eq;
      match goal with
      | Hop : (_ =? OPERATIONS_at _) = true,
        Hp : snd (ReceiveMessage_parse ?m) = Return _ |- _ =>
          apply (parsed_RESPONSE m _ Hop Hp)
      end.
  - intros Hlen Hid Hn Hop. unfold get_message_id in Hid.
    unfold ResponseParser_parse, Message3, parse_data, put. unfold_M.
    destruct (Nat.ltb_spec (length (can.data msg)) 2); [lia |].
    cbn [rm_base ReceiveMessage_init Message_init operation_id message_id message_len].
    rewrite Hid, Hn, Hop, OPERATIONS_at_RESPONSE. cbn.
    repeat case_match; simplify_eq; cbn in *; congruence.
  - intros Hlen. rewrite ResponseParser_parse_short by exact Hlen.
    reflexivity.
  - intros Hlen Hop.
    unfold ResponseParser_parse, Message3. unfold_M.
    destruct (Nat.ltb_spec (length (can.data msg)) 2); [lia |].
    cbn [rm_base ReceiveMessage_init Message_init operation_id].
    rewrite Hop. reflexivity.
  - intros Hlen Hid Hnone. unfold get_message_id in Hid.
    unfold ResponseParser_parse, Message3. unfold_M.
    destruct (Nat.ltb_spec (length (can.data msg)) 2); [lia |].
    cbn [rm_base ReceiveMessage_init Message_init operation_id message_id message_len].
    destruct (Z.eqb_spec (Z.shiftr (can.arbitration_id msg) 24) 31); [contradiction |].
    repeat case_match; simplify_eq; cbn in *; congruence.
Qed.
End ParserProperties.

(** ** Settings *)

Section SettingsProperties.
Variable environ : gmap string string.
Variable parse_datapoints : yaml_value -> result unit.
Variable parse_requests : yaml_value -> result unit.

(** On a mapping, [in] and the indexing are the lookup of the key. *)
Lemma get_env_settings_safe_mapping (env_name settings_name : string)
      (element : gmap string setting) (default : setting) :
  get_env_settings_safe environ env_name settings_name (YMapping element) default
  = match environ !! env_name with
    | Some v =>
        if string_in (lower v) ["true"; "1"]%string then Return (SBool true)
        else if string_in (lower v) ["false"; "0"]%string then Return (SBool false)
        else Return (SStr v)
    | None =>
        match element !! settings_name with
        | Some x => Return x
        | None =>
            match default with
            | SNone => Raise (VariableNotFoundError env_name settings_name)
            | d => Return d
            end
        end
    end.
Proof.
  unfold get_env_settings_safe, py_in, py_getitem.
  destruct (environ !! env_name); [reflexivity |].
  destruct (element !! settings_name); reflexivity.
Qed.

Lemma get_env_settings_safe_missing (env_name settings_name : string)
      (element : gmap string setting) :
  environ !! env_name = None -> element !! settings_name = None ->
  get_env_settings_safe environ env_name settings_name (YMapping element) SNone
  = Raise (VariableNotFoundError env_name settings_name).
Proof.
  intros He Hs. rewrite get_env_settings_safe_mapping, He, Hs. reflexivity.
Qed.

(** The only exception of [get_env_settings_safe] on a mapping. *)
Lemma get_env_settings_safe_outcome (env_name settings_name : string)
      (element : gmap string setting) (default : setting) :
  (exists v, get_env_settings_safe environ env_name settings_name (YMapping element)
                                   default
             = Return v)
  \/ get_env_settings_safe environ env_name settings_name (YMapping element) default
     = Raise (VariableNotFoundError env_name settings_name).
Proof.
  rewrite get_env_settings_safe_mapping.
  repeat case_match; eauto.
Qed.


Lemma can_assign_assigns_only key env_name settings_name
      (element : gmap string setting) default :
  assigns_only (can_assign environ key env_name settings_name (YMapping element) default).
Proof.
  intros g. unfold can_assign.
  destruct (get_env_settings_safe_outcome env_name settings_name element default)
    as [[v ->] | ->]; cbn; eauto.
Qed.





Lemma andthen_Return c1 c2 g :
  snd (andthen c1 c2 g) = Return tt ->
  snd (c1 g) = Return tt /\ snd (c2 (fst (c1 g))) = Return tt.
Proof.
  unfold andthen. destruct (c1 g) as [g1 [[] | e]]; cbn; [auto | discriminate].
Qed.


Lemma andthen_fst c1 c2 g :
  snd (c1 g) = Return tt -> fst (andthen c1 c2 g) = fst (c2 (fst (c1 g))).
Proof.
  unfold andthen. destruct (c1 g) as [g1 [[] | e]]; cbn; [auto | discriminate].
Qed.


(** *** The loop and the interface of the bus *)


Lemma mqtt_assign_keeps_can key env_name settings_name element default g :
  _can_settings (fst (mqtt_assign environ key env_name settings_name element default g))
  = _can_settings g.
Proof.
  unfold mqtt_assign. destruct (get_env_settings_safe _ _ _ _ _); reflexivity.
Qed.

Lemma andthen_keeps_can c1 c2 :
  (forall g, _can_settings (fst (c1 g)) = _can_settings g) ->
  (forall g, _can_settings (fst (c2 g)) = _can_settings g) ->
  forall g, _can_settings (fst (andthen c1 c2 g)) = _can_settings g.
Proof.
  intros H1 H2 g. unfold andthen. specialize (H1 g).
  destruct (c1 g) as [g1 [[] | e]]; cbn in *; [| exact H1].
  rewrite H2. exact H1.
Qed.

Lemma try_except_keeps_can body :
  (forall g, _can_settings (fst (body g)) = _can_settings g) ->
  forall g, _can_settings (fst (try_except_VariableNotFoundError body g))
            = _can_settings g.
Proof.
  intros Hb g. unfold try_except_VariableNotFoundError. specialize (Hb g).
  destruct (body g) as [g1 [[] | []]]; cbn in *; exact Hb.
Qed.

Lemma parse_mqtt_settings_keeps_can element g :
  _can_settings (fst (parse_mqtt_settings environ element g)) = _can_settings g.
Proof.
  unfold parse_mqtt_settings. apply try_except_keeps_can.
  repeat (apply andthen_keeps_can; [intros; apply mqtt_assign_keeps_can |]).
  intros; apply mqtt_assign_keeps_can.
Qed.

(** With its default "can0", the request for the interface never raises
    [VariableNotFoundError]: it returns a value or raises [TypeError]. *)
Lemma get_interface_outcome (element : yaml_value) :
  (exists v, get_env_settings_safe environ "CAN_INTERFACE" "interface" element
                                   (SStr "can0") = Return v)
  \/ get_env_settings_safe environ "CAN_INTERFACE" "interface" element (SStr "can0")
     = Raise TypeError.
Proof.
  unfold get_env_settings_safe, py_in, py_getitem.
  destruct (environ !! "CAN_INTERFACE"%string); [repeat case_match; eauto |].
  destruct element as [d | | contains]; cbn.
  - destruct (d !! "interface"%string); eauto.
  - auto.
  - destruct (contains "interface"%string); eauto.
Qed.

Lemma parse_can_settings_Return (element : yaml_value) (g : globals) :
  snd (parse_can_settings environ element g) = Return tt ->
  exists v,
    get_env_settings_safe environ "CAN_INTERFACE" "interface" element (SStr "can0")
    = Return v /\
    fst (parse_can_settings environ element g)
    = {| _mqtt_settings := _mqtt_settings g;
         _can_settings := <["interface"%string := v]> (_can_settings g);
         trace := trace g |}.
Proof.
  unfold parse_can_settings, try_except_VariableNotFoundError, can_assign.
  destruct (get_interface_outcome element) as [[v ->] | ->]; cbn.
  - intros _. eauto.
  - discriminate.
Qed.

Lemma parse_item_interface (i : item) (g : globals) :
  snd (parse_item environ parse_datapoints parse_requests i g) = Return tt ->
  (is_Some (_can_settings (fst (parse_item environ parse_datapoints parse_requests i g))
              !! "interface"%string)
   <-> is_Some (_can_settings g !! "interface"%string) \/ has_can_item [i] = true).
Proof.
  destruct i as [element | element | element | element | name];
    cbn [parse_item has_can_item existsb]; intros Hret.
  - cbn. split; [auto | intros [? | ?]; [assumption | discriminate]].
  - cbn. split; [auto | intros [? | ?]; [assumption | discriminate]].
  - rewrite parse_mqtt_settings_keeps_can.
    split; [auto | intros [? | ?]; [assumption | discriminate]].
  - destruct (parse_can_settings_Return element g Hret) as (v & _ & ->).
    cbn. rewrite lookup_insert_eq. split; eauto.
  - cbn. split; [auto | intros [? | ?]; [assumption | discriminate]].
Qed.

Lemma has_can_item_app (a b : list item) :
  has_can_item (a ++ b) = has_can_item a || has_can_item b.
Proof. unfold has_can_item. apply existsb_app. Qed.

Lemma parse_items_interface (items : list item) (g : globals) :
  snd (parse_items environ parse_datapoints parse_requests items g) = Return tt ->
  (is_Some (_can_settings (fst (parse_items environ parse_datapoints parse_requests
                                            items g)) !! "interface"%string)
   <-> is_Some (_can_settings g !! "interface"%string) \/ has_can_item items = true).
Proof.
  revert g. induction items as [| i items IH]; intros g Hret.
  - cbn. split; [auto | intros [? | ?]; [assumption | discriminate]].
  - cbn [parse_items] in *.
    apply andthen_Return in Hret as [Hi Hrest].
    rewrite (andthen_fst _ _ _ Hi).
    rewrite (IH _ Hrest), (parse_item_interface i g Hi).
    change (i :: items) with ([i] ++ items).
    rewrite has_can_item_app, orb_true_iff. tauto.
Qed.

End SettingsProperties.



(** ** The properties at the sample collaborators *)

(** C3 (as stated, refuted): two rejections that come out of [parse] as
    exceptions.  A single-frame RESPONSE cut after its header bytes, and
    one whose value 101 is above the upper limit 100, both raise
    [NoValidMessageException] from [parse]. *)
Lemma C3_rejection_raises_out_of_parse :
  snd (sample_parse truncated_response ResponseParser_init)
  = Raise NoValidMessageException /\
  snd (sample_parse (single_frame 0x42 101) ResponseParser_init)
  = Raise NoValidMessageException.
Proof. split; vm_compute; reflexivity. Qed.

(** The echo of a request, complete in one frame, parsed without error:
    the debug line raises [TypeError]. *)
Example single_frame_request_TypeError :
  snd (sample_parse (single_frame 0x40 42) ResponseParser_init) = Raise TypeError /\
  snd (sample_parse (single_frame 0x46 42) ResponseParser_init) = Raise TypeError.
Proof. split; vm_compute; reflexivity. Qed.

Example single_frame_response_returned :
  snd (sample_parse (single_frame 0x42 42) ResponseParser_init)
  = Return (Some (sample_datapoint, RESPONSE, 42)).
Proof. vm_compute. reflexivity. Qed.

Lemma C3_results_surface_only_for_RESPONSE_witness :
  snd (sample_parse (single_frame 0x42 42) ResponseParser_init)
  = Return (Some (sample_datapoint, RESPONSE, 42)) /\
  snd (sample_parse truncated_response ResponseParser_init)
  = Raise NoValidMessageException.
Proof.
  unfold sample_parse. split.
  - destruct (@C3_results_surface_only_for_RESPONSE
                Z_values sample_datatypes sample_registry
                ResponseParser_init (single_frame 0x42 42)) as (_ & H & _).
    rewrite H; [reflexivity | cbn; lia | reflexivity | reflexivity | reflexivity].
  - destruct (@C3_results_surface_only_for_RESPONSE
                Z_values sample_datatypes sample_registry
                ResponseParser_init truncated_response) as (_ & H & _).
    rewrite H; [reflexivity | cbn; lia | reflexivity | reflexivity | reflexivity].
Defined.

Lemma C5_limits_enforcement_witness :
  let m := put_data (ReceiveMessage_init 0x1f000102 0x42 0) [0; 0x42; 3; 4; 0; 5; 100] in
  reassembled m /\
  (6 <= length (data (rm_base m)))%nat /\
  exists operation,
    snd (sample_ReceiveMessage_parse m) = Return (sample_datapoint, operation, 100).
Proof.
  intros m.
  assert (Hm : reassembled m) by (apply reassembled_put_data, reassembled_init).
  assert (Hlen : (6 <= length (data (rm_base m)))%nat) by (cbn; lia).
  split; [exact Hm |]. split; [exact Hlen |].
  destruct (@C5_limits_enforcement Z_values sample_datatypes sample_registry
              m sample_datapoint
              (<["lower"%string := 0]> (<["upper"%string := 100]> (∅ : gmap string Z)))
              0 100 Hm Hlen) as (_ & _ & Hbound).
  - reflexivity.
  - reflexivity.
  - reflexivity.
  - reflexivity.
  - apply Hbound; [reflexivity | right; reflexivity].
Defined.

Lemma C6_to_can_message_size_guard_witness :
  exists m0 m,
    SendMessage_init (V := Z_values) 0x1fe00102 0x46 sample_datapoint = Return m0 /\
    put_data_all m0 [[0x2A]] = Return m /\
    to_can_message m
    = Return {| can.arbitration_id := 0x1fe00102;
                can.data := [1; 0x46; 3; 4; 0; 5; 0x2A];
                can.is_extended_id := true |}.
Proof.
  eexists. eexists.
  assert (Hinit : SendMessage_init (V := Z_values) 0x1fe00102 0x46 sample_datapoint
                  = Return {| sm_base := Message_init 0x1fe00102 0x46;
                              sm_message_len := 1;
                              header_data := [1; 0x46; 3; 4; 0; 5] |})
    by reflexivity.
  assert (Hput : put_data_all {| sm_base := Message_init 0x1fe00102 0x46;
                                 sm_message_len := 1;
                                 header_data := [1; 0x46; 3; 4; 0; 5] |} [[0x2A]]
                 = Return {| sm_base := set_data (Message_init 0x1fe00102 0x46) [0x2A];
                             sm_message_len := 1;
                             header_data := [1; 0x46; 3; 4; 0; 5] |})
    by reflexivity.
  split; [exact Hinit |]. split; [exact Hput |].
  destruct (C6_to_can_message_size_guard _ _ _ _ _ _ Hinit Hput) as (_ & _ & _ & H).
  rewrite H; [reflexivity | cbn; lia].
Defined.

Lemma C7_width_dispatch_witness :
  let m := put_data (ReceiveMessage_init 0x1f000102 0x42 0) [0; 0x42; 3; 4; 0; 5; 200] in
  (6 <= length (data (rm_base m)))%nat /\
  reassembled m /\
  fst (ReceiveMessage_parse (DT := sample_datatypes) (REG := offset_registry) m)
  = [LogDebugFLO (V := Z_values) 3 4 5 [-56; 200; 200] [200] 1] /\
  snd (ReceiveMessage_parse (DT := sample_datatypes) (REG := offset_registry) m)
  = Return (offset_datapoint, RESPONSE, 1200).
Proof.
  intros m.
  assert (Hlen : (6 <= length (data (rm_base m)))%nat) by (cbn; lia).
  assert (Hm : reassembled m) by (apply reassembled_put_data, reassembled_init).
  split; [exact Hlen |]. split; [exact Hm |].
  destruct (@C7_width_dispatch Z_values offset_registry sample_datatypes m Hlen)
    as ((datapoints & Hlog & Hthree & _) & Hout & _).
  split.
  - rewrite Hlog, Hthree; [reflexivity | left; reflexivity].
  - destruct (Hout offset_datapoint Hm eq_refl) as (operation & Hop & Hret).
    rewrite Hret. destruct operation; try discriminate Hop. reflexivity.
Defined.

Lemma C8_short_frame_rejected_before_registration_witness :
  let msg := {| can.arbitration_id := 0x1f000102; can.data := [0x42];
                can.is_extended_id := true |} in
  (length (can.data msg) < 2)%nat /\
  sample_parse msg ResponseParser_init
  = (ResponseParser_init, [LogError "Message too small"], Return None) /\
  _devices (fst (fst (sample_parse msg ResponseParser_init))) = ∅.
Proof.
  intros msg.
  assert (Hlen : (length (can.data msg) < 2)%nat) by (cbn; lia).
  split; [exact Hlen |].
  apply (@C8_short_frame_rejected_before_registration
           Z_values sample_datatypes sample_registry ResponseParser_init msg Hlen).
Defined.

Lemma C10_device_table_keyed_by_device_id_witness :
  let d := {| Device_device_id := 2; Device_device_type := 1 |} in
  let s := {| _pending_msg := ∅; _devices := {[ 2 := d ]} |} in
  let msg := {| can.arbitration_id := 0x1f000702;
                can.data := [0x00; 0x42; 0x03; 0x04; 0x00; 0x05; 0x2A];
                can.is_extended_id := true |} in
  _devices s !! (get_message_device_id (can.arbitration_id msg)) = Some d /\
  device_type (Message_init (can.arbitration_id msg) 0x42) = 7 /\
  _devices (fst (fst (sample_parse msg s))) = _devices s.
Proof.
  intros d s msg.
  assert (Hk : _devices s !! (get_message_device_id (can.arbitration_id msg)) = Some d)
    by reflexivity.
  split; [exact Hk |]. split; [reflexivity |].
  apply (@C10_device_table_keyed_by_device_id
           Z_values sample_datatypes sample_registry s msg d Hk).
Defined.


(** * Further properties *)

(** ** Arbitration identifiers *)

(** X1: [build_arbitration_id] is injective on tuples whose priority,
    device type and device id are bytes: two tuples with the same
    identifier are equal, whatever the message kinds. *)
Theorem X1_build_arbitration_id_injective (m p t d m' p' t' d' : Z) :
  is_byte p -> is_byte t -> is_byte d ->
  is_byte p' -> is_byte t' -> is_byte d' ->
  build_arbitration_id m p t d = build_arbitration_id m' p' t' d' ->
  m = m' /\ p = p' /\ t = t' /\ d = d'.
Proof.
  intros Hp Ht Hd Hp' Ht' Hd'.
  rewrite !build_arbitration_id_sum by assumption.
  unfold is_byte in *. lia.
Qed.

Lemma X1_build_arbitration_id_injective_witness :
  build_arbitration_id 0x1f 0xe0 1 2 = build_arbitration_id 31 224 1 2 /\
  (31 = 31 /\ 224 = 224 /\ 1 = 1 /\ 2 = 2).
Proof.
  split; [reflexivity |].
  apply (X1_build_arbitration_id_injective 0x1f 0xe0 1 2 31 224 1 2);
    unfold is_byte; try lia; reflexivity.
Defined.

(** X2: with the four components bytes, the identifier fits 32 bits;
    with a message kind of at most [0x1f] it fits the 29 bits of an
    extended CAN identifier. *)
Theorem X2_build_arbitration_id_range (m p t d : Z) :
  is_byte m -> is_byte p -> is_byte t -> is_byte d ->
  0 <= build_arbitration_id m p t d < 2 ^ 32 /\
  (m <= 0x1f -> build_arbitration_id m p t d < 2 ^ 29).
Proof.
  intros Hm Hp Ht Hd. rewrite build_arbitration_id_sum by assumption.
  unfold is_byte in *.
  change (2 ^ 32) with 4294967296. change (2 ^ 29) with 536870912. lia.
Qed.

Lemma X2_build_arbitration_id_range_witness :
  0 <= build_arbitration_id 0x1f 0 1 2 < 2 ^ 32 /\
  (0x1f <= 0x1f -> build_arbitration_id 0x1f 0 1 2 < 2 ^ 29).
Proof.
  apply (X2_build_arbitration_id_range 0x1f 0 1 2); unfold is_byte; lia.
Defined.

(** X3: on an identifier built from bytes, [get_message_device_type]
    returns the device type exactly when the low four bits of the priority
    are zero; in general it returns [(priority mod 16) * 256 +
    device_type]. *)
Theorem X3_get_message_device_type_exact (m p t d : Z) :
  is_byte p -> is_byte t -> is_byte d ->
  get_message_device_type (build_arbitration_id m p t d) = (p mod 16) * 256 + t /\
  (get_message_device_type (build_arbitration_id m p t d) = t <-> p mod 16 = 0).
Proof.
  intros Hp Ht Hd.
  rewrite get_message_device_type_build by assumption.
  split; [reflexivity |]. lia.
Qed.

Lemma X3_get_message_device_type_exact_witness :
  get_message_device_type (build_arbitration_id 0x1f 0x23 7 9) = (0x23 mod 16) * 256 + 7 /\
  (get_message_device_type (build_arbitration_id 0x1f 0x23 7 9) = 7 <-> 0x23 mod 16 = 0).
Proof.
  apply (X3_get_message_device_type_exact 0x1f 0x23 7 9); unfold is_byte; lia.
Defined.

(** X4: the fields that [Message.__init__] extracts from an identifier
    built by [build_arbitration_id] from bytes are the four components:
    decoding through the constructor does round-trip. *)
Theorem X4_Message_init_round_trip (m p t d op : Z) :
  is_byte p -> is_byte t -> is_byte d ->
  let msg := Message_init (build_arbitration_id m p t d) op in
  arbitration_id msg = build_arbitration_id m p t d /\
  message_id msg = m /\ priority msg = p /\ device_type msg = t /\
  device_id msg = d /\ operation_id msg = op /\ data msg = [].
Proof.
  intros Hp Ht Hd msg.
  destruct (Message_init_fields m p t d op Hp Ht Hd) as (H1 & H2 & H3 & H4).
  repeat split; assumption.
Qed.

Lemma X4_Message_init_round_trip_witness :
  let msg := Message_init (build_arbitration_id 0x1f 0x23 7 9) 0x42 in
  arbitration_id msg = build_arbitration_id 0x1f 0x23 7 9 /\
  message_id msg = 0x1f /\ priority msg = 0x23 /\ device_type msg = 7 /\
  device_id msg = 9 /\ operation_id msg = 0x42 /\ data msg = [].
Proof.
  apply (X4_Message_init_round_trip 0x1f 0x23 7 9 0x42); unfold is_byte; lia.
Defined.

Lemma land_0xff_is_byte (x : Z) : is_byte (Z.land x 0xff).
Proof.
  unfold is_byte. change 0xff with (Z.ones 8). rewrite Z.land_ones by lia.
  change (2 ^ 8) with 256. apply Z.mod_pos_bound. lia.
Qed.

(** X5: whatever the identifier, the priority, device type and device id
    that [Message.__init__] stores are bytes; the message kind is the
    identifier shifted, not masked: for the 29 bits of an extended CAN
    identifier it is at most [0x1f], and it is [0x1f] exactly for the
    identifiers from [0x1f000000] up. *)
Theorem X5_Message_init_field_ranges (arb op : Z) :
  let msg := Message_init arb op in
  (is_byte (priority msg) /\ is_byte (device_type msg) /\ is_byte (device_id msg)) /\
  (0 <= arb < 2 ^ 29 -> 0 <= message_id msg <= 0x1f) /\
  (0 <= arb < 2 ^ 29 -> (message_id msg = 0x1f <-> 0x1f000000 <= arb)).
Proof.
  cbn. split; [| split].
  - repeat split; apply land_0xff_is_byte.
  - intros Harb. rewrite Z.shiftr_div_pow2 by lia.
    change (2 ^ 29) with 536870912 in Harb. change (2 ^ 24) with 16777216.
    Z.div_mod_to_equations. lia.
  - intros Harb. rewrite Z.shiftr_div_pow2 by lia.
    change (2 ^ 29) with 536870912 in Harb. change (2 ^ 24) with 16777216.
    Z.div_mod_to_equations. lia.
Qed.

Lemma X5_Message_init_field_ranges_witness :
  0 <= 0x1f000102 < 2 ^ 29 /\
  message_id (Message_init 0x1f000102 0x42) = 0x1f.
Proof.
  assert (H : 0 <= 0x1f000102 < 2 ^ 29) by (change (2 ^ 29) with 536870912; lia).
  split; [exact H |].
  destruct (X5_Message_init_field_ranges 0x1f000102 0x42) as (_ & _ & Hiff).
  apply (Hiff H). lia.
Defined.

(** ** Filling and parsing a received message *)

Lemma is_valid_set_data (b : Message) (d : list Z) :
  _is_valid (set_data b d) = _is_valid b.
Proof. reflexivity. Qed.

Lemma apply_put_valid (m : ReceiveMessage) (c : put_call) :
  _is_valid (rm_base m) = true ->
  _is_valid (rm_base (apply_put m c)) = true /\
  data (rm_base (apply_put m c)) = data (rm_base m) ++ put_call_bytes c /\
  nb_remaining (apply_put m c) = nb_remaining m - 1 /\
  message_len (apply_put m c) = message_len m /\
  operation_id (rm_base (apply_put m c)) = operation_id (rm_base m) /\
  arbitration_id (rm_base (apply_put m c)) = arbitration_id (rm_base m).
Proof.
  intros Hv. destruct c as [d | d]; cbn [apply_put put_call_bytes];
    unfold put_data, put_extended_data; rewrite Hv;
    cbn [negb rm_base nb_remaining message_len];
    (split; [rewrite is_valid_set_data; exact Hv | repeat split]).
Qed.

Lemma apply_puts_valid (cs : list put_call) (m : ReceiveMessage) :
  _is_valid (rm_base m) = true ->
  data (rm_base (apply_puts m cs)) = data (rm_base m) ++ concat (map put_call_bytes cs) /\
  nb_remaining (apply_puts m cs) = nb_remaining m - Z.of_nat (length cs) /\
  message_len (apply_puts m cs) = message_len m /\
  operation_id (rm_base (apply_puts m cs)) = operation_id (rm_base m) /\
  arbitration_id (rm_base (apply_puts m cs)) = arbitration_id (rm_base m).
Proof.
  revert m. induction cs as [| c cs IH]; intros m Hv.
  - cbn. rewrite app_nil_r. repeat split; lia.
  - destruct (apply_put_valid m c Hv) as (Hv1 & Hd1 & Hn1 & Hl1 & Ho1 & Ha1).
    destruct (IH (apply_put m c) Hv1) as (Hd & Hn & Hl & Ho & Ha).
    change (apply_puts m (c :: cs)) with (apply_puts (apply_put m c) cs).
    rewrite Hd, Hn, Hl, Ho, Ha, Hd1, Hn1, Hl1, Ho1, Ha1.
    cbn [map concat length]. rewrite <- app_assoc.
    repeat split; lia.
Qed.

(** X6: on a message with a known operation code, any sequence of
    [put_data] and [put_extended_data] calls whose payloads are bytes, as
    the payloads of received frames are, appends the payloads in call
    order, the extended ones without their last two bytes, and counts
    [nb_remaining] down by one per call from [message_len + 1]: it is 0
    exactly after [message_len + 1] calls. *)
Theorem X6_puts_accumulate_and_count (arb op len : Z) (cs : list put_call) :
  Z_in op Operation_list = true ->
  Forall (fun c => Forall is_byte (put_call_payload c)) cs ->
  let m := apply_puts (ReceiveMessage_init arb op len) cs in
  data (rm_base m) = concat (map put_call_bytes cs) /\
  Forall is_byte (data (rm_base m)) /\
  nb_remaining m = len + 1 - Z.of_nat (length cs) /\
  message_len m = len /\
  (nb_remaining m = 0 <-> Z.of_nat (length cs) = len + 1).
Proof.
  intros Hop Hbytes m.
  destruct (apply_puts_valid cs (ReceiveMessage_init arb op len) Hop)
    as (Hd & Hn & Hl & _).
  fold m in Hd, Hn, Hl. cbn in Hd, Hn, Hl.
  rewrite Hd, Hn, Hl. split; [reflexivity |]. split; [| repeat split; lia].
  clear -Hbytes. induction Hbytes as [| c cs Hc Hcs IH]; cbn [map concat].
  - constructor.
  - apply Forall_app. split; [| exact IH].
    destruct c as [d | d]; cbn in *; [exact Hc |].
    unfold drop_last_two. apply Forall_take. exact Hc.
Qed.

Lemma X6_puts_accumulate_and_count_witness :
  let cs := [PutExtendedData [0x08; 0x42; 3; 4; 0; 5; 0xAA; 0xBB]; PutData [0x2A]] in
  let m := apply_puts (ReceiveMessage_init 0x1f000102 0x42 1) cs in
  Z_in 0x42 Operation_list = true /\
  Forall (fun c => Forall is_byte (put_call_payload c)) cs /\
  data (rm_base m) = [0x08; 0x42; 3; 4; 0; 5; 0x2A] /\
  nb_remaining m = 0.
Proof.
  intros cs m.
  assert (Hop : Z_in 0x42 Operation_list = true) by reflexivity.
  assert (Hb : Forall (fun c => Forall is_byte (put_call_payload c)) cs)
    by (repeat constructor; unfold is_byte; lia).
  split; [exact Hop |]. split; [exact Hb |].
  destruct (X6_puts_accumulate_and_count 0x1f000102 0x42 1 cs Hop Hb)
    as (Hd & _ & Hn & _).
  split; [exact Hd | exact Hn].
Defined.

Lemma apply_puts_invalid (cs : list put_call) (m : ReceiveMessage) :
  _is_valid (rm_base m) = false -> apply_puts m cs = m.
Proof.
  intros Hv. induction cs as [| c cs IH]; [reflexivity |].
  change (apply_puts m (c :: cs)) with (apply_puts (apply_put m c) cs).
  assert (E : apply_put m c = m).
  { destruct c; cbn; unfold put_data, put_extended_data; rewrite Hv; reflexivity. }
  rewrite E. exact IH.
Qed.

Section ReceiveFurther.
Context `{V : Values} {DT : Datatypes} {REG : Registry}.

(** X7: a message whose operation code is none of the three takes no
    bytes in: every put leaves it as constructed, buffer empty and
    [nb_remaining] at [message_len + 1], and [parse] raises
    [NoValidMessageException] without logging or consulting the
    registry. *)
Theorem X7_unknown_operation_message_stays_empty (arb op len : Z) (cs : list put_call) :
  Z_in op Operation_list = false ->
  let m := apply_puts (ReceiveMessage_init arb op len) cs in
  m = ReceiveMessage_init arb op len /\
  data (rm_base m) = [] /\
  nb_remaining m = len + 1 /\
  ReceiveMessage_parse m = ([], Raise NoValidMessageException).
Proof.
  intros Hop m.
  assert (E : m = ReceiveMessage_init arb op len)
    by (apply apply_puts_invalid; exact Hop).
  rewrite E. repeat split.
Qed.

Lemma Operation_of_value_Return (v : Z) (o : Operation) :
  Operation_of_value v = Return o ->
  Operation_value o = v /\ Z_in v Operation_list = true.
Proof.
  unfold Operation_of_value, Z_in, Operation_list. cbn.
  destruct (Z.eqb_spec v 66); [intros [= <-]; subst; auto |].
  destruct (Z.eqb_spec v 64); [intros [= <-]; subst; auto |].
  destruct (Z.eqb_spec v 70); [intros [= <-]; subst; auto |].
  discriminate.
Qed.

(** X8: [parse] enforces bounds only when the datapoint's limits hold
    both "lower" and "upper".  With no limits, or with one of the two keys
    missing, a reassembled message of at least 6 bytes whose datapoint is
    registered is returned whatever its value. *)
Theorem X8_one_sided_limits_not_enforced (m : ReceiveMessage) (dp : Datapoint) :
  reassembled m ->
  let d := data (rm_base m) in
  (6 <= length d)%nat ->
  get_datapoint_by_id (nth 2 d 0) (nth 3 d 0) (int_from_bytes_big (take 2 (drop 4 d)))
  = Some dp ->
  match get_datapoint_limits dp with
  | None => True
  | Some limits => limits !! "lower"%string = None \/ limits !! "upper"%string = None
  end ->
  exists operation,
    Operation_value operation = operation_id (rm_base m) /\
    snd (ReceiveMessage_parse m)
    = Return (dp, operation, convert_from_bytes (get_datapoint_type dp) (drop 6 d)).
Proof.
  intros Hm d Hlen Hdp Hlim.
  pose proof (ReceiveMessage_parse_known m dp Hlen Hdp) as Hparse.
  cbn zeta in Hparse. fold d in Hparse.
  assert (Hvalid : _is_valid (rm_base m) = true)
    by (apply reassembled_data_valid; [exact Hm | apply length_ge_6_nonempty; exact Hlen]).
  apply Operation_of_value_valid in Hvalid as (o & Ho & Hov).
  exists o. split; [exact Hov |].
  rewrite Hparse, Ho.
  destruct (get_datapoint_limits dp) as [limits |]; [| reflexivity].
  destruct Hlim as [-> | Hup]; [reflexivity |].
  rewrite Hup. destruct (limits !! "lower"%string); reflexivity.
Qed.

(** X9: whatever the message, a triple returned by [parse] carries the
    member of [Operation] whose value is the message's [operation_id], so
    nothing is returned for an unknown operation code, and the buffer
    held at least the 6 header bytes. *)
Theorem X9_parse_returns_known_operation (m : ReceiveMessage) (r : parsed) :
  snd (ReceiveMessage_parse m) = Return r ->
  Operation_value (snd (fst r)) = operation_id (rm_base m) /\
  _is_valid (rm_base m) = true /\
  (6 <= length (data (rm_base m)))%nat.
Proof.
  intros Hr.
  pose proof (ReceiveMessage_parse_operation m r Hr) as Ho.
  apply Operation_of_value_Return in Ho as [Hv Hin].
  split; [exact Hv |]. split; [exact Hin |].
  unfold ReceiveMessage_parse in Hr.
  destruct (Nat.ltb_spec (length (data (rm_base m))) 6); [discriminate | lia].
Qed.
End ReceiveFurther.

Lemma X7_unknown_operation_message_stays_empty_witness :
  let m := apply_puts (ReceiveMessage_init 0x1f000102 0x41 0)
                      [PutData [0x00; 0x41; 3; 4; 0; 5; 42]] in
  Z_in 0x41 Operation_list = false /\
  data (rm_base m) = [] /\
  sample_ReceiveMessage_parse m = ([], Raise NoValidMessageException).
Proof.
  intros m.
  assert (Hop : Z_in 0x41 Operation_list = false) by reflexivity.
  split; [exact Hop |].
  destruct (@X7_unknown_operation_message_stays_empty
              Z_values sample_datatypes sample_registry 0x1f000102 0x41 0
              [PutData [0x00; 0x41; 3; 4; 0; 5; 42]] Hop) as (_ & Hd & _ & Hp).
  split; [exact Hd | exact Hp].
Defined.

Lemma X8_one_sided_limits_not_enforced_witness :
  let dp := {| function_group := 3; function_number := 4; datapoint_id := 5;
               function_name := "lower only";
               get_datapoint_type := @Build_Datatype Z_values int_from_bytes_big;
               get_datapoint_limits := Some (<["lower"%string := 50]> (∅ : gmap string Z));
               periodic := false |} in
  let reg := {| get_datapoint_by_id := fun _ _ _ => Some dp |} : @Registry Z_values in
  let m := put_data (ReceiveMessage_init 0x1f000102 0x42 0) [0; 0x42; 3; 4; 0; 5; 7] in
  reassembled m /\
  exists operation,
    snd (ReceiveMessage_parse (DT := sample_datatypes) (REG := reg) m)
    = Return (dp, operation, 7).
Proof.
  intros dp reg m.
  assert (Hm : reassembled m) by (apply reassembled_put_data, reassembled_init).
  split; [exact Hm |].
  destruct (@X8_one_sided_limits_not_enforced Z_values sample_datatypes reg m dp Hm)
    as (o & _ & Ho).
  - cbn. lia.
  - reflexivity.
  - right. reflexivity.
  - exists o. exact Ho.
Defined.

Lemma X9_parse_returns_known_operation_witness :
  let m := put_data (ReceiveMessage_init 0x1f000102 0x42 0) [0; 0x42; 3; 4; 0; 5; 42] in
  snd (sample_ReceiveMessage_parse m) = Return (sample_datapoint, RESPONSE, 42) /\
  _is_valid (rm_base m) = true.
Proof.
  intros m.
  assert (Hr : snd (sample_ReceiveMessage_parse m) = Return (sample_datapoint, RESPONSE, 42))
    by reflexivity.
  split; [exact Hr |].
  apply (@X9_parse_returns_known_operation Z_values sample_datatypes sample_registry
           m (sample_datapoint, RESPONSE, 42) Hr).
Defined.

(** ** Building outbound frames *)

Section OutboundFurther.
Context `{V : Values}.

(** X10: whatever the [SendMessage], [to_can_message] raises nothing but
    [NoValidMessageException], and a frame it returns has at most 8 data
    bytes, the header followed by the payload, the message's arbitration
    id and the extended-id flag; nothing is truncated. *)
Theorem X10_to_can_message_frame (m : SendMessage) :
  (forall e, to_can_message m = Raise e -> e = NoValidMessageException) /\
  (forall f, to_can_message m = Return f ->
     (length (can.data f) <= 8)%nat /\
     can.data f = header_data m ++ data (sm_base m) /\
     can.arbitration_id f = arbitration_id (sm_base m) /\
     can.is_extended_id f = true).
Proof.
  unfold to_can_message, _message_size.
  destruct (Z.gtb_spec (Z.of_nat (length (data (sm_base m)))
                        + Z.of_nat (length (header_data m))) 8) as [Hgt | Hle].
  - split; [intros e [= <-]; reflexivity | intros f; discriminate].
  - split; [intros e; discriminate |].
    intros f [= <-]. cbn. rewrite length_app. repeat split. lia.
Qed.

Lemma put_data_all_invalid (ds : list (list Z)) (m : SendMessage) :
  _is_valid (sm_base m) = false -> put_data_all m ds = Return m.
Proof.
  intros Hv. induction ds as [| d ds IH]; [reflexivity |].
  cbn. unfold SendMessage_put_data. rewrite Hv. cbn. exact IH.
Qed.

(** X11: a [SendMessage] whose operation code is a byte but none of the
    three known ones drops every payload silently: [put_data] returns
    the message unchanged, even for values that are no bytes, and
    [to_can_message] gives the frame of the 6 header bytes alone. *)
Theorem X11_unknown_operation_payload_dropped (arb op : Z) (dp : Datapoint)
        (m0 : SendMessage) (ds : list (list Z)) :
  SendMessage_init arb op dp = Return m0 ->
  Z_in op Operation_list = false ->
  put_data_all m0 ds = Return m0 /\
  to_can_message m0
  = Return {| can.arbitration_id := arb;
              can.data := [1; op; function_group dp; function_number dp]
                            ++ get_datapoint_by_bytes dp;
              can.is_extended_id := true |}.
Proof.
  intros Hinit Hop.
  assert (Hbase : sm_base m0 = Message_init arb op).
  { revert Hinit. unfold SendMessage_init, _put_header. cbn [header_data sm_message_len sm_base].
    destruct (bytearray_append [] 1); cbn; [| discriminate].
    destruct (bytearray_append _ _); cbn; [| discriminate].
    destruct (bytearray_append _ _); cbn; [| discriminate].
    destruct (bytearray_append _ _); cbn; [| discriminate].
    destruct (bytearray_extend _ _); cbn; [| discriminate].
    intros [= <-]. reflexivity. }
  apply SendMessage_init_header in Hinit as (Hh & Hd & Harb).
  split.
  - apply put_data_all_invalid. rewrite Hbase. exact Hop.
  - unfold to_can_message, _message_size. rewrite Hh, Hd, Harb. reflexivity.
Qed.

Lemma bytearray_append_Raise (b : list Z) (x : Z) :
  ~ is_byte x -> bytearray_append b x = Raise ValueError.
Proof.
  unfold is_byte, bytearray_append. intros Hx.
  destruct (Z.leb_spec 0 x); destruct (Z.ltb_spec x 256); cbn; try reflexivity. lia.
Qed.

Lemma bytearray_append_ok (b : list Z) (x : Z) :
  is_byte x -> bytearray_append b x = Return (b ++ [x]).
Proof.
  unfold is_byte, bytearray_append. intros Hx.
  destruct (Z.leb_spec 0 x); destruct (Z.ltb_spec x 256); cbn; try reflexivity; lia.
Qed.

(** X12: [SendMessage.__init__] raises [ValueError] exactly when the
    operation code, the function group or the function number is not a
    byte, the two bytes of the datapoint id being in range by
    construction; otherwise the message starts with an empty payload. *)
Theorem X12_SendMessage_init_ValueError (arb op : Z) (dp : Datapoint) :
  (SendMessage_init arb op dp = Raise ValueError
   <-> ~ (is_byte op /\ is_byte (function_group dp) /\ is_byte (function_number dp))) /\
  (is_byte op -> is_byte (function_group dp) -> is_byte (function_number dp) ->
   SendMessage_init arb op dp
   = Return {| sm_base := Message_init arb op;
               sm_message_len := 1;
               header_data := [1; op; function_group dp; function_number dp]
                                ++ get_datapoint_by_bytes dp |}).
Proof.
  assert (Hok : is_byte op -> is_byte (function_group dp) -> is_byte (function_number dp) ->
                SendMessage_init arb op dp
                = Return {| sm_base := Message_init arb op;
                            sm_message_len := 1;
                            header_data := [1; op; function_group dp; function_number dp]
                                             ++ get_datapoint_by_bytes dp |}).
  { intros Ho Hg Hn. unfold SendMessage_init, _put_header.
    cbn [header_data sm_message_len sm_base operation_id Message_init].
    rewrite (bytearray_append_ok [] 1) by (unfold is_byte; lia). cbn.
    rewrite (bytearray_append_ok _ op Ho). cbn.
    rewrite (bytearray_append_ok _ _ Hg). cbn.
    rewrite (bytearray_append_ok _ _ Hn). cbn.
    unfold bytearray_extend, get_datapoint_by_bytes. cbn [forallb].
    pose proof (land_0xff_is_byte (Z.shiftr (datapoint_id dp) 8)) as H1.
    pose proof (land_0xff_is_byte (datapoint_id dp)) as H2.
    unfold is_byte in H1, H2.
    destruct (Z.leb_spec 0 (Z.land (Z.shiftr (datapoint_id dp) 8) 255)); [| lia].
    destruct (Z.ltb_spec (Z.land (Z.shiftr (datapoint_id dp) 8) 255) 256); [| lia].
    destruct (Z.leb_spec 0 (Z.land (datapoint_id dp) 255)); [| lia].
    destruct (Z.ltb_spec (Z.land (datapoint_id dp) 255) 256); [| lia].
    reflexivity. }
  split; [| exact Hok].
  split.
  - intros Hraise (Ho & Hg & Hn). rewrite (Hok Ho Hg Hn) in Hraise. discriminate.
  - intros Hnot. unfold SendMessage_init, _put_header.
    cbn [header_data sm_message_len sm_base operation_id Message_init].
    rewrite (bytearray_append_ok [] 1) by (unfold is_byte; lia). cbn.
    destruct (decide (is_byte op)) as [Ho | Ho];
      [rewrite (bytearray_append_ok _ op Ho) | rewrite (bytearray_append_Raise _ op Ho); reflexivity].
    cbn.
    destruct (decide (is_byte (function_group dp))) as [Hg | Hg];
      [rewrite (bytearray_append_ok _ _ Hg) | rewrite (bytearray_append_Raise _ _ Hg); reflexivity].
    cbn.
    destruct (decide (is_byte (function_number dp))) as [Hn | Hn];
      [tauto | rewrite (bytearray_append_Raise _ _ Hn); reflexivity].
Qed.
End OutboundFurther.

Section OutboundPayload.
Context `{V : Values}.

Lemma bytearray_extend_ok (b xs : list Z) :
  Forall is_byte xs -> bytearray_extend b xs = Return (b ++ xs).
Proof.
  intros Hxs. unfold bytearray_extend.
  assert (E : forallb (fun x => (0 <=? x) && (x <? 256)) xs = true).
  { apply forallb_forall. intros x Hx.
    rewrite Forall_forall in Hxs. specialize (Hxs x). unfold is_byte in Hxs.
    apply list_elem_of_In in Hx. specialize (Hxs Hx).
    apply andb_true_intro. split; [apply Z.leb_le | apply Z.ltb_lt]; lia. }
  rewrite E. reflexivity.
Qed.

Lemma bytearray_extend_Raise (b xs : list Z) (x : Z) :
  In x xs -> ~ is_byte x -> bytearray_extend b xs = Raise ValueError.
Proof.
  intros Hin Hx. unfold bytearray_extend.
  destruct (forallb _ xs) eqn:E; [| reflexivity].
  exfalso. rewrite forallb_forall in E. specialize (E x Hin).
  apply andb_prop in E as [E1 E2]. apply Z.leb_le in E1. apply Z.ltb_lt in E2.
  apply Hx. unfold is_byte. lia.
Qed.

(** X13: on a [SendMessage] with a known operation code, [put_data]
    calls with byte payloads never fail and append the payloads in call
    order; the header and the identifier stay as they are. *)
Theorem X13_put_data_appends (m : SendMessage) (ds : list (list Z)) :
  _is_valid (sm_base m) = true ->
  Forall (Forall is_byte) ds ->
  exists m',
    put_data_all m ds = Return m' /\
    data (sm_base m') = data (sm_base m) ++ concat ds /\
    header_data m' = header_data m /\
    arbitration_id (sm_base m') = arbitration_id (sm_base m) /\
    operation_id (sm_base m') = operation_id (sm_base m).
Proof.
  intros Hv Hds. revert m Hv.
  induction Hds as [| d ds Hd Hds IH]; intros m Hv.
  - exists m. cbn. rewrite app_nil_r. auto.
  - cbn [put_data_all]. unfold SendMessage_put_data at 1. rewrite Hv.
    cbn [negb]. rewrite (bytearray_extend_ok _ d Hd). cbn.
    destruct (IH {| sm_base := set_data (sm_base m) (data (sm_base m) ++ d);
                    sm_message_len := sm_message_len m;
                    header_data := header_data m |})
      as (m' & Hput & Hdata & Hh & Harb & Hop); [exact Hv |].
    exists m'. cbn in Hdata, Hh, Harb, Hop.
    rewrite Hput, Hdata, Hh, Harb, Hop. cbn [concat].
    rewrite <- app_assoc. auto.
Qed.

(** X14: on a [SendMessage] with a known operation code, a payload with
    an element outside [0, 256) makes [put_data] raise [ValueError]; in
    particular [put_single_data] does for such a value. *)
Theorem X14_put_data_ValueError (m : SendMessage) (d : list Z) (x : Z) :
  _is_valid (sm_base m) = true ->
  In x d -> ~ is_byte x ->
  SendMessage_put_data m d = Raise ValueError /\
  put_single_data m x = Raise ValueError.
Proof.
  intros Hv Hin Hx. unfold put_single_data, SendMessage_put_data. rewrite Hv.
  cbn [negb].
  rewrite (bytearray_extend_Raise _ d x Hin Hx).
  rewrite (bytearray_extend_Raise _ [x] x (or_introl eq_refl) Hx).
  split; reflexivity.
Qed.
End OutboundPayload.

(** ** From an outbound frame back to the parse step *)

Lemma datapoint_id_bytes_round_trip (id : Z) :
  0 <= id < 65536 ->
  int_from_bytes_big [Z.land (Z.shiftr id 8) 0xff; Z.land id 0xff] = id.
Proof.
  intros Hid. unfold int_from_bytes_big. cbn [fold_left].
  rewrite Z.shiftr_div_pow2 by lia.
  change 0xff with (Z.ones 8). rewrite !Z.land_ones by lia.
  change (2 ^ 8) with 256. Z.div_mod_to_equations. lia.
Qed.

Section OutboundInbound.
Context `{V : Values} {DT : Datatypes} {REG : Registry}.

(** X15: the frame that [to_can_message] builds for a datapoint whose
    id fits 16 bits reads back as it was written.  Its header byte
    declares length 0 and its second byte is the operation code; put into
    a [ReceiveMessage] with a known operation code, the parse step
    extracts the datapoint's function group, function number and id, and
    takes exactly the payload as the value slice. *)
Theorem X15_outbound_frame_reads_back (arb op : Z) (dp : Datapoint)
        (ds : list (list Z)) (m0 m : SendMessage) (f : can.Message) :
  SendMessage_init arb op dp = Return m0 ->
  put_data_all m0 ds = Return m ->
  to_can_message m = Return f ->
  Z_in op Operation_list = true ->
  0 <= datapoint_id dp < 65536 ->
  let payload := data (sm_base m) in
  let rm := put_data (ReceiveMessage_init (can.arbitration_id f)
                                          (get_operation_id (can.data f))
                                          (get_message_len (can.data f)))
                     (can.data f) in
  get_message_len (can.data f) = 0 /\
  get_operation_id (can.data f) = op /\
  nb_remaining rm = 0 /\
  exists datapoints,
    fst (ReceiveMessage_parse rm)
    = [LogDebugFLO (function_group dp) (function_number dp) (datapoint_id dp)
                   datapoints payload (length payload)].
Proof.
  intros Hinit Hput Hcan Hop Hid payload rm.
  apply SendMessage_init_header in Hinit as (Hh & _ & _).
  apply put_data_all_frame in Hput as (Hh' & _).
  assert (Hdata : can.data f
                  = [1; op; function_group dp; function_number dp;
                     Z.land (Z.shiftr (datapoint_id dp) 8) 0xff;
                     Z.land (datapoint_id dp) 0xff] ++ payload).
  { revert Hcan. unfold to_can_message.
    destruct (_ >? _); [discriminate |]. intros [= <-]. cbn [can.data].
    rewrite Hh', Hh. reflexivity. }
  assert (Hlen0 : get_message_len (can.data f) = 0) by (rewrite Hdata; reflexivity).
  assert (Hop0 : get_operation_id (can.data f) = op) by (rewrite Hdata; reflexivity).
  split; [exact Hlen0 |]. split; [exact Hop0 |].
  subst rm. rewrite Hlen0, Hop0.
  unfold put_data. cbn [rm_base ReceiveMessage_init].
  change (_is_valid (Message_init (can.arbitration_id f) op)) with (Z_in op Operation_list).
  rewrite Hop. cbn [negb nb_remaining]. split; [reflexivity |].
  unfold ReceiveMessage_parse.
  cbn [rm_base set_data data Message_init app].
  rewrite Hdata.
  set (buf := [1; op; function_group dp; function_number dp;
               Z.land (Z.shiftr (datapoint_id dp) 8) 0xff;
               Z.land (datapoint_id dp) 0xff] ++ payload).
  assert (Hshort : (length buf <? 6)%nat = false) by reflexivity.
  assert (E6 : drop 6 buf = payload) by reflexivity.
  assert (E4 : take 2 (drop 4 buf)
               = [Z.land (Z.shiftr (datapoint_id dp) 8) 0xff;
                  Z.land (datapoint_id dp) 0xff]) by reflexivity.
  assert (E2 : nth 2 buf 0 = function_group dp) by reflexivity.
  assert (E3 : nth 3 buf 0 = function_number dp) by reflexivity.
  rewrite Hshort, E6, E4, E2, E3, (datapoint_id_bytes_round_trip _ Hid).
  cbn [fst]. eexists. reflexivity.
Qed.
End OutboundInbound.

Lemma X10_to_can_message_frame_witness :
  let m := {| sm_base := set_data (Message_init 0x1fe00102 0x46) [0x2A];
              sm_message_len := 1;
              header_data := [1; 0x46; 3; 4; 0; 5] |} in
  let f := {| can.arbitration_id := 0x1fe00102;
              can.data := [1; 0x46; 3; 4; 0; 5; 0x2A];
              can.is_extended_id := true |} in
  to_can_message m = Return f /\ (length (can.data f) <= 8)%nat.
Proof.
  intros m f.
  assert (Hf : to_can_message m = Return f) by reflexivity.
  split; [exact Hf |].
  destruct (X10_to_can_message_frame m) as (_ & H).
  apply (H f Hf).
Defined.

Lemma X11_unknown_operation_payload_dropped_witness :
  let m0 := {| sm_base := Message_init 0x1fe00102 0x41;
               sm_message_len := 1;
               header_data := [1; 0x41; 3; 4; 0; 5] |} in
  SendMessage_init (V := Z_values) 0x1fe00102 0x41 sample_datapoint = Return m0 /\
  Z_in 0x41 Operation_list = false /\
  put_data_all m0 [[300]; [0x2A]] = Return m0.
Proof.
  intros m0.
  assert (Hinit : SendMessage_init (V := Z_values) 0x1fe00102 0x41 sample_datapoint
                  = Return m0) by reflexivity.
  assert (Hop : Z_in 0x41 Operation_list = false) by reflexivity.
  split; [exact Hinit |]. split; [exact Hop |].
  apply (X11_unknown_operation_payload_dropped
           0x1fe00102 0x41 sample_datapoint m0 [[300]; [0x2A]] Hinit Hop).
Defined.

Lemma X12_SendMessage_init_ValueError_witness :
  SendMessage_init (V := Z_values) 0x1fe00102 300 sample_datapoint = Raise ValueError.
Proof.
  apply (proj1 (X12_SendMessage_init_ValueError 0x1fe00102 300 sample_datapoint)).
  unfold is_byte. intros [H _]. lia.
Defined.

Lemma X13_put_data_appends_witness :
  let m := {| sm_base := Message_init 0x1fe00102 0x46;
              sm_message_len := 1;
              header_data := [1; 0x46; 3; 4; 0; 5] |} in
  _is_valid (sm_base m) = true /\
  exists m', put_data_all m [[1]; [2]] = Return m' /\ data (sm_base m') = [1; 2].
Proof.
  intros m.
  assert (Hv : _is_valid (sm_base m) = true) by reflexivity.
  split; [exact Hv |].
  destruct (X13_put_data_appends m [[1]; [2]] Hv) as (m' & Hput & Hdata & _).
  - repeat constructor; unfold is_byte; lia.
  - exists m'. split; [exact Hput | exact Hdata].
Defined.

Lemma X14_put_data_ValueError_witness :
  let m := {| sm_base := Message_init 0x1fe00102 0x46;
              sm_message_len := 1;
              header_data := [1; 0x46; 3; 4; 0; 5] |} in
  _is_valid (sm_base m) = true /\
  SendMessage_put_data m [1; 256] = Raise ValueError /\
  put_single_data m 256 = Raise ValueError.
Proof.
  intros m.
  assert (Hv : _is_valid (sm_base m) = true) by reflexivity.
  split; [exact Hv |].
  apply (X14_put_data_ValueError m [1; 256] 256 Hv).
  - cbn. auto.
  - unfold is_byte. lia.
Defined.

Lemma X15_outbound_frame_reads_back_witness :
  let m0 := {| sm_base := Message_init 0x1fe00102 0x40;
               sm_message_len := 1;
               header_data := [1; 0x40; 3; 4; 0; 5] |} in
  let m := {| sm_base := set_data (Message_init 0x1fe00102 0x40) [7];
              sm_message_len := 1;
              header_data := [1; 0x40; 3; 4; 0; 5] |} in
  let f := {| can.arbitration_id := 0x1fe00102;
              can.data := [1; 0x40; 3; 4; 0; 5; 7];
              can.is_extended_id := true |} in
  SendMessage_init (V := Z_values) 0x1fe00102 0x40 sample_datapoint = Return m0 /\
  put_data_all m0 [[7]] = Return m /\
  to_can_message m = Return f /\
  get_message_len (can.data f) = 0 /\
  exists datapoints,
    fst (sample_ReceiveMessage_parse
           (put_data (ReceiveMessage_init 0x1fe00102 0x40 0) (can.data f)))
    = [LogDebugFLO (V := Z_values) 3 4 5 datapoints [7] 1].
Proof.
  intros m0 m f.
  assert (Hinit : SendMessage_init (V := Z_values) 0x1fe00102 0x40 sample_datapoint
                  = Return m0) by reflexivity.
  assert (Hput : put_data_all m0 [[7]] = Return m) by reflexivity.
  assert (Hcan : to_can_message m = Return f) by reflexivity.
  split; [exact Hinit |]. split; [exact Hput |]. split; [exact Hcan |].
  destruct (@X15_outbound_frame_reads_back Z_values sample_datatypes sample_registry
              0x1fe00102 0x40 sample_datapoint [[7]] m0 m f Hinit Hput Hcan)
    as (Hlen & _ & _ & Hlog).
  - reflexivity.
  - cbn. lia.
  - split; [exact Hlen | exact Hlog].
Defined.

(** ** The tables of the response parser *)

Section ParserFurther.
Context `{V : Values} {DT : Datatypes} {REG : Registry}.

Ltac unfold_parser :=
  unfold ResponseParser_parse, obj_parse_data, obj_operation_id, obj_put,
    obj_nb_remaining, Message3, parse_data, put;
  unfold mbind, M_bind, mret, M_ret, lift, lift_logged, logging,
    get_devices, get_pending_msg, set_devices, set_pending_msg in *.

Ltac no_message :=
  match goal with
  | Hs : pending_all_sets ?s, H : _pending_msg ?s !! _ = Some (OMessage _) |- _ =>
      destruct (Hs _ _ H) as [? ?]; discriminate
  end.

(** X16: a frame of at least 2 bytes with a known operation code leaves
    its device in the table, whether [parse] then returns or raises: a
    device already under that [device_id] stays, otherwise the device
    with the frame's id and type is entered; no other key changes. *)
Theorem X16_known_frame_registers_device (s : ResponseParser) (msg : can.Message) :
  (2 <= length (can.data msg))%nat ->
  Z_in (nth 1 (can.data msg) 0) OPERATIONS_values = true ->
  let s' := fst (fst (ResponseParser_parse msg s)) in
  let id := get_message_device_id (can.arbitration_id msg) in
  _devices s' !! id
  = Some (match _devices s !! id with
          | Some d => d
          | None => {| Device_device_id := id;
                       Device_device_type :=
                         Z.land (Z.shiftr (can.arbitration_id msg) 8) 0xff |}
          end) /\
  (forall k, k <> id -> _devices s' !! k = _devices s !! k).
Proof.
  intros Hlen Hop. cbn zeta. unfold get_message_device_id.
  unfold_parser.
  destruct (Nat.ltb_spec (length (can.data msg)) 2); [lia |].
  cbn [rm_base ReceiveMessage_init Message_init operation_id device_id device_type
       message_id message_len].
  rewrite Hop.
  destruct (_devices s !! Z.land (can.arbitration_id msg) 255) as [d0 |] eqn:Hd.
  - repeat case_match; simplify_eq; cbn in *; split; auto.
  - repeat case_match; simplify_eq; cbn in *;
      (split; [apply lookup_insert_eq | intros k Hk; apply lookup_insert_ne; congruence]).
Qed.

Lemma devices_wf_step (s : ResponseParser) (msg : can.Message) :
  devices_wf (_devices s) ->
  devices_wf (_devices (fst (fst (ResponseParser_parse msg s)))).
Proof.
  intros Hwf.
  destruct (ResponseParser_parse_devices s msg) as [-> | [_ ->]]; [exact Hwf |].
  intros k d. rewrite lookup_insert. case_decide as Hk.
  - intros [= <-]. subst k. cbn.
    repeat split; try apply land_0xff_is_byte;
      unfold get_message_device_id; apply land_0xff_is_byte.
  - apply Hwf.
Qed.

(** X17: whatever frames a fresh parser is fed, every entry of its device
    table sits under its own [device_id], and its id and type are bytes:
    the table never holds more than one device per id. *)
Theorem X17_device_table_well_formed (msgs : list can.Message) :
  devices_wf (_devices (fst (feed ResponseParser_init msgs))).
Proof.
  assert (Hgen : forall s, devices_wf (_devices s) ->
                           devices_wf (_devices (fst (feed s msgs)))).
  { induction msgs as [| msg msgs IH]; intros s Hs; cbn; [exact Hs |].
    pose proof (devices_wf_step s msg Hs) as H1.
    destruct (ResponseParser_parse msg s) as [[s1 lg] r]. cbn in H1.
    specialize (IH s1 H1). destruct (feed s1 msgs) as [s2 rs]. exact IH. }
  apply Hgen. intros k d. cbn. rewrite lookup_empty. discriminate.
Qed.

(** One call changes the pending table, if at all, by storing a set
    literal under an operation code. *)
Lemma pending_step (s : ResponseParser) (msg : can.Message) :
  pending_all_sets s ->
  _pending_msg (fst (fst (ResponseParser_parse msg s))) = _pending_msg s
  \/ exists k m,
       Z_in k OPERATIONS_values = true /\
       _pending_msg (fst (fst (ResponseParser_parse msg s)))
       = <[k := OSet [m]]> (_pending_msg s).
Proof.
  intros Hs. unfold_parser.
  destruct (length (can.data msg) <? 2)%nat; [left; reflexivity |].
  cbn [rm_base ReceiveMessage_init Message_init operation_id device_id device_type
       message_id message_len].
  destruct (Z_in (nth 1 (can.data msg) 0) OPERATIONS_values) eqn:Hop;
    [| left; reflexivity].
  repeat case_match; simplify_eq; cbn in *; auto; try no_message;
    right; eexists _, _; (split; [exact Hop | reflexivity]).
Qed.
End ParserFurther.

Section ParserSequences.
Context `{V : Values} {DT : Datatypes} {REG : Registry}.

Ltac unfold_parse :=
  unfold ResponseParser_parse, obj_parse_data, obj_operation_id, obj_put,
    obj_nb_remaining, Message3, parse_data, put;
  unfold mbind, M_bind, mret, M_ret, lift, lift_logged, logging,
    get_devices, get_pending_msg, set_devices, set_pending_msg in *.

Ltac only_sets :=
  match goal with
  | Hs : pending_all_sets ?s, H : _pending_msg ?s !! _ = Some (OMessage _) |- _ =>
      destruct (Hs _ _ H) as [? ?]; discriminate
  end.

Lemma pending_keys_step (s : ResponseParser) (msg : can.Message) :
  (forall k o, _pending_msg s !! k = Some o ->
     Z_in k OPERATIONS_values = true /\ exists m, o = OSet [m]) ->
  forall k o, _pending_msg (fst (fst (ResponseParser_parse msg s))) !! k = Some o ->
    Z_in k OPERATIONS_values = true /\ exists m, o = OSet [m].
Proof.
  intros Hs.
  assert (Hall : pending_all_sets s).
  { intros k o Hk. destruct (Hs k o Hk) as (_ & m & ->). eauto. }
  destruct (pending_step s msg Hall) as [-> | (k0 & m0 & Hk0 & ->)]; [exact Hs |].
  intros k o. rewrite lookup_insert. case_decide as Hk.
  - intros [= <-]. subst k. eauto.
  - apply Hs.
Qed.

(** X18: whatever frames a fresh parser is fed, every key of its pending
    table is one of the three operation codes and every value is a set
    literal holding one message; so the table never has more than three
    entries, and none is keyed by a first payload byte unless that byte
    is an operation code. *)
Theorem X18_pending_keys_are_operation_codes (msgs : list can.Message) (k : Z) (o : pyobj) :
  _pending_msg (fst (feed ResponseParser_init msgs)) !! k = Some o ->
  (k = 0x42 \/ k = 0x40 \/ k = 0x46) /\ exists m, o = OSet [m].
Proof.
  assert (Hgen : forall s,
             (forall k o, _pending_msg s !! k = Some o ->
                Z_in k OPERATIONS_values = true /\ exists m, o = OSet [m]) ->
             forall k o, _pending_msg (fst (feed s msgs)) !! k = Some o ->
                Z_in k OPERATIONS_values = true /\ exists m, o = OSet [m]).
  { induction msgs as [| msg msgs IH]; intros s Hs; cbn; [exact Hs |].
    pose proof (pending_keys_step s msg Hs) as H1.
    destruct (ResponseParser_parse msg s) as [[s1 lg] r]. cbn in H1.
    specialize (IH s1 H1). destruct (feed s1 msgs) as [s2 rs]. exact IH. }
  intros Hk.
  destruct (Hgen ResponseParser_init) with (k := k) (o := o) as [Hin Hset].
  - intros k0 o0. cbn. rewrite lookup_empty. discriminate.
  - exact Hk.
  - split; [| exact Hset].
    unfold Z_in, OPERATIONS_values in Hin. cbn in Hin.
    rewrite !orb_true_iff in Hin.
    destruct Hin as [E | [E | [E | E]]]; try discriminate;
      apply Z.eqb_eq in E; auto.
Qed.

(** X19: with only set literals in the pending table, an entry is never
    removed: a key present before a sequence of frames is present after
    it. *)
Theorem X19_pending_entries_never_removed (msgs : list can.Message)
        (s : ResponseParser) (k : Z) :
  pending_all_sets s ->
  is_Some (_pending_msg s !! k) ->
  is_Some (_pending_msg (fst (feed s msgs)) !! k).
Proof.
  revert s. induction msgs as [| msg msgs IH]; intros s Hs Hk; cbn; [exact Hk |].
  pose proof (ResponseParser_parse_all_sets s msg Hs) as H1.
  assert (H2 : is_Some (_pending_msg (fst (fst (ResponseParser_parse msg s))) !! k)).
  { destruct (pending_step s msg Hs) as [-> | (k0 & m0 & _ & ->)]; [exact Hk |].
    rewrite lookup_insert. case_decide; [eauto | exact Hk]. }
  destruct (ResponseParser_parse msg s) as [[s1 lg] r]. cbn in H1, H2.
  specialize (IH s1 H1 H2). destruct (feed s1 msgs) as [s2 rs]. exact IH.
Qed.

(** X20: a first frame that announces continuation frames replaces
    whatever was pending under its operation code: after the call the
    entry is the set holding the new message, whose buffer is empty, the
    frame's own payload not being put, and whose [nb_remaining] is the
    declared length plus one; the other keys are untouched and nothing is
    returned. *)
Theorem X20_first_frame_replaces_pending (s : ResponseParser) (msg : can.Message) :
  (2 <= length (can.data msg))%nat ->
  Z_in (nth 1 (can.data msg) 0) OPERATIONS_values = true ->
  get_message_id (can.arbitration_id msg) = 0x1f ->
  Z.shiftr (nth 0 (can.data msg) 0) 3 <> 0 ->
  let s' := fst (fst (ResponseParser_parse msg s)) in
  let op := nth 1 (can.data msg) 0 in
  let m := Message3 (can.arbitration_id msg) (Z.shiftr (nth 0 (can.data msg) 0) 3) op in
  snd (ResponseParser_parse msg s) = Return None /\
  _pending_msg s' !! op = Some (OSet [m]) /\
  data (rm_base m) = [] /\
  nb_remaining m = Z.shiftr (nth 0 (can.data msg) 0) 3 + 1 /\
  (forall k, k <> op -> _pending_msg s' !! k = _pending_msg s !! k).
Proof.
  intros Hlen Hop Hid Hn s' op m.
  destruct (first_frame_stored_under_operation_id s msg Hlen Hop Hid Hn) as [Hout Hp].
  subst s'. rewrite Hp. fold op. fold m.
  split; [exact Hout |].
  split; [apply lookup_insert_eq |].
  split; [reflexivity |]. split; [reflexivity |].
  intros k Hk. apply lookup_insert_ne. congruence.
Qed.

Lemma put_data_operation_id (m : ReceiveMessage) (d : list Z) :
  operation_id (rm_base (put_data m d)) = operation_id (rm_base m).
Proof. unfold put_data. destruct (negb (_is_valid (rm_base m))); reflexivity. Qed.

Lemma result_frame_shape (s : ResponseParser) (msg : can.Message) (r : parsed) :
  pending_all_sets s ->
  snd (ResponseParser_parse msg s) = Return (Some r) ->
  (2 <= length (can.data msg))%nat /\
  get_message_id (can.arbitration_id msg) = 0x1f /\
  get_message_len (can.data msg) = 0 /\
  get_operation_id (can.data msg) = Operation_value RESPONSE.
Proof.
  intros Hs. unfold get_message_id, get_message_len, get_operation_id.
  unfold_parse. rewrite OPERATIONS_at_RESPONSE.
  destruct (Nat.ltb_spec (length (can.data msg)) 2); [discriminate |].
  cbn [rm_base ReceiveMessage_init Message_init operation_id device_id device_type
       message_id message_len].
  repeat case_match; simplify_eq; cbn in *; try discriminate; try only_sets;
    intros _;
    repeat match goal with
           | H : (_ =? _) = true |- _ => apply Z.eqb_eq in H
           end;
    repeat match goal with
           | H : operation_id (rm_base (put_data _ _)) = _ |- _ =>
               rewrite put_data_operation_id in H; cbn in H
           end;
    auto.
Qed.

(** X21: with only set literals in the pending table, as from a fresh
    parser on, every result in a run comes from a frame that is a complete
    single-frame RESPONSE message: message kind [0x1f], declared length 0,
    operation code [0x42]. *)
Theorem X21_results_come_from_single_frames (msgs : list can.Message)
        (s : ResponseParser) (i : nat) (msg : can.Message) (r : parsed) :
  pending_all_sets s ->
  msgs !! i = Some msg ->
  snd (feed s msgs) !! i = Some (Return (Some r)) ->
  (2 <= length (can.data msg))%nat /\
  get_message_id (can.arbitration_id msg) = 0x1f /\
  get_message_len (can.data msg) = 0 /\
  get_operation_id (can.data msg) = Operation_value RESPONSE.
Proof.
  revert s i. induction msgs as [| m0 msgs IH]; intros s i Hs Hi Hr; [discriminate |].
  cbn in Hr.
  pose proof (ResponseParser_parse_all_sets s m0 Hs) as H1.
  pose proof (result_frame_shape s m0 r Hs) as Hshape.
  destruct (ResponseParser_parse m0 s) as [[s1 lg] r0]. cbn in H1, Hshape.
  destruct (feed s1 msgs) as [s2 rs] eqn:Ef.
  destruct i as [| i]; cbn in *.
  - injection Hi as <-. injection Hr as ->. apply Hshape. reflexivity.
  - apply (IH s1 i H1 Hi). rewrite Ef. exact Hr.
Qed.

(** X22: a complete single-frame message whose operation is GET_REQUEST
    or SET_REQUEST never returns from [parse]: when its parse step
    succeeds, the debug line, a [str] plus a tuple, raises [TypeError];
    when the parse step raises, that exception comes out. *)
Theorem X22_single_frame_request_outcome (s : ResponseParser) (msg : can.Message) :
  (2 <= length (can.data msg))%nat ->
  get_message_id (can.arbitration_id msg) = 0x1f ->
  get_message_len (can.data msg) = 0 ->
  get_operation_id (can.data msg) = Operation_value GET_REQUEST
  \/ get_operation_id (can.data msg) = Operation_value SET_REQUEST ->
  snd (ResponseParser_parse msg s)
  = match snd (ReceiveMessage_parse
                 (put_data (ReceiveMessage_init (can.arbitration_id msg)
                                                (get_operation_id (can.data msg)) 0)
                           (can.data msg)))
    with
    | Return _ => Raise TypeError
    | Raise e => Raise e
    end.
Proof.
  unfold get_message_id, get_message_len, get_operation_id.
  intros Hlen Hid Hn Hop.
  unfold_parse. rewrite OPERATIONS_at_RESPONSE.
  destruct (Nat.ltb_spec (length (can.data msg)) 2); [lia |].
  cbn [rm_base ReceiveMessage_init Message_init operation_id device_id device_type
       message_id message_len].
  rewrite Hid, Hn.
  destruct Hop as [-> | ->]; cbn;
    repeat case_match; simplify_eq; cbn in *; congruence.
Qed.
End ParserSequences.

Lemma X16_known_frame_registers_device_witness :
  snd (sample_parse (single_frame 0x40 42) ResponseParser_init) = Raise TypeError /\
  _devices (fst (fst (sample_parse (single_frame 0x40 42) ResponseParser_init))) !! 2
  = Some {| Device_device_id := 2; Device_device_type := 1 |}.
Proof.
  split; [vm_compute; reflexivity |].
  destruct (@X16_known_frame_registers_device Z_values sample_datatypes sample_registry
              ResponseParser_init (single_frame 0x40 42)) as [H _].
  - cbn. lia.
  - reflexivity.
  - exact H.
Defined.

Lemma X17_device_table_well_formed_witness :
  _devices (fst (feed (V := Z_values) (DT := sample_datatypes) (REG := sample_registry)
                      ResponseParser_init [single_frame 0x42 42])) !! 2
  = Some {| Device_device_id := 2; Device_device_type := 1 |} /\
  is_byte 2 /\ is_byte 1.
Proof.
  assert (H : _devices (fst (feed (V := Z_values) (DT := sample_datatypes)
                                  (REG := sample_registry)
                                  ResponseParser_init [single_frame 0x42 42])) !! 2
              = Some {| Device_device_id := 2; Device_device_type := 1 |})
    by (vm_compute; reflexivity).
  split; [exact H |].
  destruct (@X17_device_table_well_formed Z_values sample_datatypes sample_registry
              [single_frame 0x42 42] 2 _ H) as (_ & H1 & H2).
  split; [exact H1 | exact H2].
Defined.

Lemma X18_pending_keys_are_operation_codes_witness :
  _pending_msg (fst (feed (V := Z_values) (DT := sample_datatypes) (REG := sample_registry)
                          ResponseParser_init [scenario_first_frame])) !! 0x42
  = Some (OSet [Message3 0x1f000102 1 0x42]) /\
  (0x42 = 0x42 \/ 0x42 = 0x40 \/ 0x42 = 0x46).
Proof.
  assert (H : _pending_msg (fst (feed (V := Z_values) (DT := sample_datatypes)
                                      (REG := sample_registry)
                                      ResponseParser_init [scenario_first_frame])) !! 0x42
              = Some (OSet [Message3 0x1f000102 1 0x42]))
    by (vm_compute; reflexivity).
  split; [exact H |].
  apply (@X18_pending_keys_are_operation_codes Z_values sample_datatypes sample_registry
           [scenario_first_frame] 0x42 _ H).
Defined.

Lemma X19_pending_entries_never_removed_witness :
  let s := fst (feed (V := Z_values) (DT := sample_datatypes) (REG := sample_registry)
                     ResponseParser_init [scenario_first_frame]) in
  @pending_all_sets Z_values sample_datatypes sample_registry s /\
  is_Some (_pending_msg
             (fst (feed (V := Z_values) (DT := sample_datatypes) (REG := sample_registry)
                        s [scenario_continuation; continuation_on_operation_key])) !! 0x42).
Proof.
  intros s.
  assert (Hs : @pending_all_sets Z_values sample_datatypes sample_registry s)
    by (apply feed_all_sets, pending_all_sets_init).
  split; [exact Hs |].
  apply (@X19_pending_entries_never_removed Z_values sample_datatypes sample_registry
           [scenario_continuation; continuation_on_operation_key] s 0x42 Hs).
  exists (OSet [Message3 0x1f000102 1 0x42]). vm_compute. reflexivity.
Defined.

Lemma X20_first_frame_replaces_pending_witness :
  let s := {| _pending_msg := {[ 0x42 := OSet [Message3 0x1f000909 3 0x42] ]};
              _devices := ∅ |} in
  _pending_msg (fst (fst (sample_parse scenario_first_frame s))) !! 0x42
  = Some (OSet [Message3 0x1f000102 1 0x42]).
Proof.
  intros s.
  destruct (@X20_first_frame_replaces_pending Z_values sample_datatypes sample_registry
              s scenario_first_frame) as (_ & H & _).
  - cbn. lia.
  - reflexivity.
  - reflexivity.
  - intros E. vm_compute in E. discriminate E.
  - exact H.
Defined.

Lemma X21_results_come_from_single_frames_witness :
  snd (feed (V := Z_values) (DT := sample_datatypes) (REG := sample_registry)
            ResponseParser_init [single_frame 0x42 42]) !! 0%nat
  = Some (Return (Some (sample_datapoint, RESPONSE, 42))) /\
  get_message_len (can.data (single_frame 0x42 42)) = 0 /\
  get_operation_id (can.data (single_frame 0x42 42)) = Operation_value RESPONSE.
Proof.
  assert (H : snd (feed (V := Z_values) (DT := sample_datatypes) (REG := sample_registry)
                        ResponseParser_init [single_frame 0x42 42]) !! 0%nat
              = Some (Return (Some (sample_datapoint, RESPONSE, 42))))
    by (vm_compute; reflexivity).
  split; [exact H |].
  destruct (@X21_results_come_from_single_frames Z_values sample_datatypes sample_registry
              [single_frame 0x42 42] ResponseParser_init 0%nat (single_frame 0x42 42)
              (sample_datapoint, RESPONSE, 42) pending_all_sets_init eq_refl H)
    as (_ & _ & H1 & H2).
  split; [exact H1 | exact H2].
Defined.

Lemma X22_single_frame_request_outcome_witness :
  snd (sample_parse (single_frame 0x46 42) ResponseParser_init) = Raise TypeError.
Proof.
  unfold sample_parse.
  rewrite (@X22_single_frame_request_outcome Z_values sample_datatypes sample_registry
             ResponseParser_init (single_frame 0x46 42)).
  - reflexivity.
  - cbn. lia.
  - reflexivity.
  - reflexivity.
  - right. reflexivity.
Defined.

(** ** Loading the settings *)

Section SettingsFurther.
Variable environ : gmap string string.

(** X23: on a mapping, [get_env_settings_safe] raises exactly when the
    variable is not in the environment, the key is not in the settings and
    the default is [None]; what it raises then is [VariableNotFoundError]
    for that pair of names.  A key present in the settings with a null
    value counts as present. *)
Theorem X23_get_env_settings_safe_raises_iff (env_name settings_name : string)
        (settings : gmap string setting) (default : setting) :
  ((exists e, get_env_settings_safe environ env_name settings_name (YMapping settings)
                                    default
              = Raise e)
   <-> environ !! env_name = None /\ settings !! settings_name = None
       /\ default = SNone) /\
  (forall e, get_env_settings_safe environ env_name settings_name (YMapping settings)
                                   default
             = Raise e ->
             e = VariableNotFoundError env_name settings_name) /\
  (settings !! settings_name = Some SNone -> environ !! env_name = None ->
   get_env_settings_safe environ env_name settings_name (YMapping settings) default
   = Return SNone).
Proof.
  rewrite get_env_settings_safe_mapping. split; [| split].
  - split.
    + intros [e He]. revert He.
      repeat case_match; try discriminate; auto.
    + intros (-> & -> & ->). eauto.
  - intros e. repeat case_match; try discriminate. intros [= <-]. reflexivity.
  - intros -> ->. reflexivity.
Qed.

(** X24: a variable set in the environment decides the result alone: the
    settings, mapping or not, and the default play no part, the call does
    not raise, and the result is a boolean or the variable's own string,
    never a value of the settings file. *)
Theorem X24_environment_overrides (env_name settings_name : string) (v : string)
        (settings settings' : yaml_value) (default default' : setting) :
  environ !! env_name = Some v ->
  get_env_settings_safe environ env_name settings_name settings default
  = get_env_settings_safe environ env_name settings_name settings' default' /\
  (get_env_settings_safe environ env_name settings_name settings default
   = Return (SStr v)
   \/ exists b,
        get_env_settings_safe environ env_name settings_name settings default
        = Return (SBool b)).
Proof.
  intros He. unfold get_env_settings_safe. rewrite He.
  split; [reflexivity |].
  repeat case_match; eauto.
Qed.

Lemma get_env_settings_safe_available (env_name settings_name : string)
      (element : gmap string setting) (default : setting) :
  is_Some (environ !! env_name) \/ is_Some (element !! settings_name)
  \/ default <> SNone ->
  exists v, get_env_settings_safe environ env_name settings_name (YMapping element)
                                  default
            = Return v.
Proof.
  intros Hav. rewrite get_env_settings_safe_mapping.
  destruct (environ !! env_name) as [v |] eqn:He.
  - repeat case_match; eauto.
  - destruct (element !! settings_name) as [x |] eqn:Hs; [eauto |].
    destruct Hav as [[? Hx] | [[? Hx] | Hx]]; try discriminate.
    destruct default; eauto. contradiction.
Qed.

Lemma mqtt_assign_Return_state key env_name settings_name element default v g :
  get_env_settings_safe environ env_name settings_name element default = Return v ->
  mqtt_assign environ key env_name settings_name element default g
  = ({| _mqtt_settings := <[key := v]> (_mqtt_settings g);
        _can_settings := _can_settings g;
        trace := trace g |}, Return tt).
Proof. intros Hv. unfold mqtt_assign. rewrite Hv. reflexivity. Qed.

Lemma mqtt_assign_Raise_state key env_name settings_name element default e g :
  get_env_settings_safe environ env_name settings_name element default = Raise e ->
  mqtt_assign environ key env_name settings_name element default g = (g, Raise e).
Proof. intros He. unfold mqtt_assign. rewrite He. reflexivity. Qed.

(** X25: when each of name, broker, username and password is available,
    from the environment or from the "mqtt" mapping, [parse_mqtt_settings]
    returns without logging, and the state it leaves is the one before
    with the seven keys assigned, in the order of the source, each to the
    value that [get_env_settings_safe] gives for it; [_can_settings] and
    the trace are as before. *)
Theorem X25_complete_mqtt_settings (element : gmap string setting) (g : globals) :
  (forall env_name settings_name,
     In (env_name, settings_name) required_mqtt_settings ->
     is_Some (environ !! env_name) \/ is_Some (element !! settings_name)) ->
  exists enable name topic broker username password port,
    get_env_settings_safe environ "MQTT_ENABLE" "enable" (YMapping element) (SBool true)
    = Return enable /\
    get_env_settings_safe environ "MQTT_NAME" "name" (YMapping element) SNone
    = Return name /\
    get_env_settings_safe environ "MQTT_TOPIC" "topic" (YMapping element)
                          (SStr "hoval-gw")
    = Return topic /\
    get_env_settings_safe environ "MQTT_BROKER" "broker" (YMapping element) SNone
    = Return broker /\
    get_env_settings_safe environ "MQTT_USERNAME" "username" (YMapping element) SNone
    = Return username /\
    get_env_settings_safe environ "MQTT_PASSWORD" "password" (YMapping element) SNone
    = Return password /\
    get_env_settings_safe environ "MQTT_PORT" "port" (YMapping element) (SStr "1883")
    = Return port /\
    parse_mqtt_settings environ (YMapping element) g
    = ({| _mqtt_settings :=
            <["port"%string := port]>
              (<["password"%string := password]>
                 (<["username"%string := username]>
                    (<["broker"%string := broker]>
                       (<["topic"%string := topic]>
                          (<["name"%string := name]>
                             (<["enable"%string := enable]> (_mqtt_settings g)))))));
          _can_settings := _can_settings g;
          trace := trace g |}, Return tt).
Proof.
  intros Hreq.
  assert (Hav : forall e sn, In (e, sn) required_mqtt_settings ->
                  exists v, get_env_settings_safe environ e sn (YMapping element) SNone
                            = Return v).
  { intros e sn Hin. apply get_env_settings_safe_available.
    destruct (Hreq e sn Hin); auto. }
  destruct (get_env_settings_safe_available "MQTT_ENABLE" "enable" element (SBool true))
    as [v1 H1]; [right; right; discriminate |].
  destruct (Hav "MQTT_NAME" "name")%string as [v2 H2]; [cbn; auto |].
  destruct (get_env_settings_safe_available "MQTT_TOPIC" "topic" element (SStr "hoval-gw"))
    as [v3 H3]; [right; right; discriminate |].
  destruct (Hav "MQTT_BROKER" "broker")%string as [v4 H4]; [cbn; auto |].
  destruct (Hav "MQTT_USERNAME" "username")%string as [v5 H5]; [cbn; auto |].
  destruct (Hav "MQTT_PASSWORD" "password")%string as [v6 H6]; [cbn; auto 10 |].
  destruct (get_env_settings_safe_available "MQTT_PORT" "port" element (SStr "1883"))
    as [v7 H7]; [right; right; discriminate |].
  exists v1, v2, v3, v4, v5, v6, v7.
  repeat (split; [assumption |]).
  unfold parse_mqtt_settings, try_except_VariableNotFoundError, andthen.
  rewrite (mqtt_assign_Return_state _ _ _ _ _ _ _ H1).
  rewrite (mqtt_assign_Return_state _ _ _ _ _ _ _ H2).
  rewrite (mqtt_assign_Return_state _ _ _ _ _ _ _ H3).
  rewrite (mqtt_assign_Return_state _ _ _ _ _ _ _ H4).
  rewrite (mqtt_assign_Return_state _ _ _ _ _ _ _ H5).
  rewrite (mqtt_assign_Return_state _ _ _ _ _ _ _ H6).
  rewrite (mqtt_assign_Return_state _ _ _ _ _ _ _ H7).
  reflexivity.
Qed.

(** X26: when the name is in neither the environment nor the "mqtt"
    item, [parse_mqtt_settings] stops at it: "enable" is the only key
    assigned, and "topic" and "port" are left as they were although both
    have defaults. *)
Theorem X26_missing_name_leaves_defaults_unset (element : gmap string setting)
        (g : globals) :
  environ !! "MQTT_NAME"%string = None ->
  element !! "name"%string = None ->
  let g' := fst (parse_mqtt_settings environ (YMapping element) g) in
  (exists v, _mqtt_settings g' = <["enable"%string := v]> (_mqtt_settings g)) /\
  _mqtt_settings g' !! "topic"%string = _mqtt_settings g !! "topic"%string /\
  _mqtt_settings g' !! "port"%string = _mqtt_settings g !! "port"%string /\
  trace g'
  = trace g ++ [EvLoggingError (VariableNotFoundError_message "MQTT_NAME" "name")].
Proof.
  intros He Hs.
  destruct (get_env_settings_safe_available "MQTT_ENABLE" "enable" element (SBool true))
    as [v1 H1]; [right; right; discriminate |].
  pose proof (get_env_settings_safe_missing environ "MQTT_NAME" "name" element He Hs)
    as H2.
  cbn zeta. unfold parse_mqtt_settings, try_except_VariableNotFoundError, andthen.
  rewrite (mqtt_assign_Return_state _ _ _ _ _ _ _ H1).
  rewrite (mqtt_assign_Raise_state _ _ _ _ _ _ _ H2).
  cbn [fst snd trace _can_settings _mqtt_settings emit].
  split; [exists v1; reflexivity |].
  repeat split; simplify_map_eq; reflexivity.
Qed.

(** X27: [parse_can_settings] raises [TypeError], which its handler does
    not catch, exactly when the environment does not give the interface
    and the "can" element is no mapping and either is not iterable, as a
    null element, or contains "interface"; nothing is assigned then.  In
    every other case it returns, logs nothing, leaves [_mqtt_settings]
    alone and assigns "interface"; without the environment variable the
    value is the mapping's, and "can0" when there is none. *)
Theorem X27_parse_can_settings_assigns_interface (element : yaml_value) (g : globals) :
  let raises :=
    environ !! "CAN_INTERFACE"%string = None /\
    (element = YNotIterable
     \/ exists contains, element = YContainer contains
                         /\ contains "interface"%string = true) in
  (raises -> parse_can_settings environ element g = (g, Raise TypeError)) /\
  (~ raises ->
   exists v,
     parse_can_settings environ element g
     = ({| _mqtt_settings := _mqtt_settings g;
           _can_settings := <["interface"%string := v]> (_can_settings g);
           trace := trace g |}, Return tt) /\
     (environ !! "CAN_INTERFACE"%string = None ->
      v = match element with
          | YMapping d =>
              match d !! "interface"%string with
              | Some x => x
              | None => SStr "can0"
              end
          | _ => SStr "can0"
          end)).
Proof.
  cbn zeta.
  unfold parse_can_settings, try_except_VariableNotFoundError, can_assign,
    get_env_settings_safe, py_in, py_getitem.
  split.
  - intros [He Hel]. rewrite He.
    destruct Hel as [-> | (contains & -> & Hc)]; cbn; [reflexivity |].
    rewrite Hc. reflexivity.
  - intros Hnot.
    destruct (environ !! "CAN_INTERFACE"%string) as [v |] eqn:He.
    + repeat case_match; simplify_eq; eexists; (split; [reflexivity | discriminate]).
    + destruct element as [d | | contains]; cbn.
      * destruct (d !! "interface"%string) as [x |];
          eexists; (split; [reflexivity | reflexivity]).
      * exfalso. apply Hnot. auto.
      * destruct (contains "interface"%string) eqn:Hc.
        -- exfalso. apply Hnot. split; [reflexivity |]. right. eauto.
        -- eexists. split; reflexivity.
Qed.
End SettingsFurther.

Section StartupFurther.
Variable environ : gmap string string.
Variable parse_datapoints : yaml_value -> result unit.
Variable parse_requests : yaml_value -> result unit.

(** X28: [main] up to the bus handler.  A settings file that is no
    mapping raises [AttributeError]; an exception that leaves the loop of
    [parse_settings] leaves [main] with no handler constructed.  When the
    loop returns: without a trace file [main] fails with [KeyError] on
    [_can_settings["interface"]] exactly when the file has no "can" item,
    and otherwise constructs [CanHandler] on the assigned interface; with
    a trace file it constructs [CandumpHandler]. *)
Theorem X28_main_needs_can_item (items : list item) :
  (forall file,
     main_to_handler environ parse_datapoints parse_requests file DNotMapping
     = (globals_init, Raise AttributeError)) /\
  (forall file e,
     snd (parse_items environ parse_datapoints parse_requests items globals_init)
     = Raise e ->
     main_to_handler environ parse_datapoints parse_requests file (DMapping items)
     = (fst (parse_items environ parse_datapoints parse_requests items globals_init),
        Raise e)) /\
  (snd (parse_items environ parse_datapoints parse_requests items globals_init)
   = Return tt ->
   (snd (main_to_handler environ parse_datapoints parse_requests None (DMapping items))
    = Raise KeyError
    <-> has_can_item items = false) /\
   (has_can_item items = true ->
    exists g v,
      main_to_handler environ parse_datapoints parse_requests None (DMapping items)
      = (emit (EvCanHandler v) g, Return tt) /\
      _can_settings g !! "interface"%string = Some v) /\
   (forall f,
      exists g,
        main_to_handler environ parse_datapoints parse_requests (Some f) (DMapping items)
        = (emit (EvCandumpHandler f) g, Return tt))).
Proof.
  split; [reflexivity |]. split.
  - intros file e. unfold main_to_handler, parse_settings.
    destruct (parse_items environ parse_datapoints parse_requests items globals_init)
      as [g r]. cbn. intros ->. reflexivity.
  - intros Hret.
    pose proof (parse_items_interface environ parse_datapoints parse_requests
                  items globals_init Hret) as Hint.
    unfold main_to_handler, parse_settings.
    destruct (parse_items environ parse_datapoints parse_requests items globals_init)
      as [g r].
    cbn [fst snd] in Hret, Hint. subst r.
    assert (Hempty : ~ is_Some (_can_settings globals_init !! "interface"%string)).
    { cbn. rewrite lookup_empty. intros [? ?]. discriminate. }
    split; [| split].
    + destruct (_can_settings g !! "interface"%string) as [v |] eqn:Hv; cbn.
      * split; [discriminate |]. intros Hno.
        destruct (proj1 Hint) as [? | ?]; [eauto | contradiction | congruence].
      * split; [| reflexivity]. intros _.
        destruct (has_can_item items) eqn:Hc; [| reflexivity].
        destruct (proj2 Hint) as [? ?]; [auto | discriminate].
    + intros Hc. destruct (proj2 Hint) as [v Hv]; [auto |].
      exists g, v. rewrite Hv. auto.
    + intros f. eauto.
Qed.
End StartupFurther.

Lemma X23_get_env_settings_safe_raises_iff_witness :
  get_env_settings_safe ∅ "MQTT_BROKER" "broker"
                        (YMapping (<["broker"%string := SNone]> ∅)) SNone
  = Return SNone /\
  exists e, get_env_settings_safe ∅ "MQTT_BROKER" "broker" (YMapping ∅) SNone = Raise e.
Proof.
  split.
  - apply (proj2 (proj2 (X23_get_env_settings_safe_raises_iff
                           ∅ "MQTT_BROKER" "broker" (<["broker"%string := SNone]> ∅) SNone)));
      reflexivity.
  - apply (proj1 (X23_get_env_settings_safe_raises_iff ∅ "MQTT_BROKER" "broker" ∅ SNone)).
    repeat split.
Defined.

Lemma X24_environment_overrides_witness :
  let environ := <["MQTT_ENABLE"%string := "False"%string]> (∅ : gmap string string) in
  environ !! "MQTT_ENABLE"%string = Some "False"%string /\
  get_env_settings_safe environ "MQTT_ENABLE" "enable"
                        (YMapping (<["enable"%string := SBool true]> ∅)) (SBool true)
  = get_env_settings_safe environ "MQTT_ENABLE" "enable" YNotIterable SNone.
Proof.
  intros environ.
  assert (He : environ !! "MQTT_ENABLE"%string = Some "False"%string) by reflexivity.
  split; [exact He |].
  apply (X24_environment_overrides environ "MQTT_ENABLE" "enable" "False"
           (YMapping (<["enable"%string := SBool true]> ∅)) YNotIterable
           (SBool true) SNone He).
Defined.

Lemma X25_complete_mqtt_settings_witness :
  let environ := <["MQTT_PASSWORD"%string := "secret"%string]> (∅ : gmap string string) in
  let element := <["name"%string := SStr "gw"]>
                   (<["broker"%string := SStr "broker.local"]>
                      (<["username"%string := SStr "hoval"]> (∅ : gmap string setting))) in
  parse_mqtt_settings environ (YMapping element) globals_init
  = ({| _mqtt_settings :=
          <["port"%string := SStr "1883"]>
            (<["password"%string := SStr "secret"]>
               (<["username"%string := SStr "hoval"]>
                  (<["broker"%string := SStr "broker.local"]>
                     (<["topic"%string := SStr "hoval-gw"]>
                        (<["name"%string := SStr "gw"]>
                           (<["enable"%string := SBool true]> ∅))))));
        _can_settings := ∅;
        trace := [] |}, Return tt).
Proof.
  intros environ element.
  destruct (X25_complete_mqtt_settings environ element globals_init)
    as (v1 & v2 & v3 & v4 & v5 & v6 & v7 & H1 & H2 & H3 & H4 & H5 & H6 & H7 & Hstate).
  - intros e sn Hin. cbn in Hin.
    destruct Hin as [E | [E | [E | [E | []]]]]; injection E as <- <-;
      [right | right | right | left]; eexists; reflexivity.
  - rewrite Hstate.
    vm_compute in H1, H2, H3, H4, H5, H6, H7.
    injection H1 as <-. injection H2 as <-. injection H3 as <-. injection H4 as <-.
    injection H5 as <-. injection H6 as <-. injection H7 as <-.
    reflexivity.
Defined.

Lemma X26_missing_name_leaves_defaults_unset_witness :
  let element := <["broker"%string := SStr "broker.local"]> (∅ : gmap string setting) in
  (∅ : gmap string string) !! "MQTT_NAME"%string = None /\
  element !! "name"%string = None /\
  _mqtt_settings (fst (parse_mqtt_settings ∅ (YMapping element) globals_init))
    !! "topic"%string
  = None.
Proof.
  intros element.
  assert (He : (∅ : gmap string string) !! "MQTT_NAME"%string = None) by reflexivity.
  assert (Hs : element !! "name"%string = None) by reflexivity.
  split; [exact He |]. split; [exact Hs |].
  destruct (X26_missing_name_leaves_defaults_unset ∅ element globals_init He Hs)
    as (_ & Ht & _).
  rewrite Ht. reflexivity.
Defined.

Lemma X27_parse_can_settings_assigns_interface_witness :
  parse_can_settings ∅ YNotIterable globals_init = (globals_init, Raise TypeError) /\
  exists v,
    parse_can_settings ∅ (YMapping ∅) globals_init
    = ({| _mqtt_settings := ∅;
          _can_settings := <["interface"%string := v]> ∅;
          trace := [] |}, Return tt) /\
    v = SStr "can0".
Proof.
  split.
  - apply (proj1 (X27_parse_can_settings_assigns_interface ∅ YNotIterable globals_init)).
    split; [reflexivity | left; reflexivity].
  - destruct (proj2 (X27_parse_can_settings_assigns_interface ∅ (YMapping ∅) globals_init))
      as (v & Hstate & Hv).
    + intros [_ [H | (c & H & _)]]; discriminate H.
    + exists v. split; [exact Hstate |]. apply Hv. reflexivity.
Defined.

Lemma X28_main_needs_can_item_witness :
  snd (parse_items ∅ parser_returns parser_returns [ItemMqtt (YMapping ∅)] globals_init)
  = Return tt /\
  has_can_item [ItemMqtt (YMapping ∅)] = false /\
  snd (main_to_handler ∅ parser_returns parser_returns None
                       (DMapping [ItemMqtt (YMapping ∅)]))
  = Raise KeyError.
Proof.
  assert (Hret : snd (parse_items ∅ parser_returns parser_returns
                                  [ItemMqtt (YMapping ∅)] globals_init) = Return tt)
    by (vm_compute; reflexivity).
  assert (H : has_can_item [ItemMqtt (YMapping ∅)] = false) by reflexivity.
  split; [exact Hret |]. split; [exact H |].
  destruct (X28_main_needs_can_item ∅ parser_returns parser_returns
              [ItemMqtt (YMapping ∅)]) as (_ & _ & Hmain).
  destruct (Hmain Hret) as (Hiff & _).
  apply (proj2 Hiff H).
Defined.

(** ** Dispatchers and registered devices *)

(** X29: the identifier that [PeriodicRequest] computes for a device
    whose type and id are bytes lies between [0x1fe00000] and
    [0x1fe0ffff], within the 29 bits of an extended CAN identifier, and
    two such devices with the same identifier are the same device. *)
Theorem X29_dispatcher_id_range_and_injective (d1 d2 : Device) :
  is_byte (Device_device_type d1) -> is_byte (Device_device_id d1) ->
  is_byte (Device_device_type d2) -> is_byte (Device_device_id d2) ->
  0x1fe00000 <= pr_arbitration_id (PeriodicRequest_init d1) <= 0x1fe0ffff /\
  (pr_arbitration_id (PeriodicRequest_init d1) = pr_arbitration_id (PeriodicRequest_init d2)
   -> d1 = d2).
Proof.
  intros Ht1 Hi1 Ht2 Hi2. cbn [pr_arbitration_id PeriodicRequest_init].
  rewrite !dispatcher_arbitration_id_build.
  assert (Hp : is_byte 0xe0) by (unfold is_byte; lia).
  rewrite !build_arbitration_id_sum by assumption.
  unfold is_byte in *. split; [lia |].
  intros E. destruct d1, d2. cbn in *. f_equal; lia.
Qed.

Lemma X29_dispatcher_id_range_and_injective_witness :
  let d := {| Device_device_id := 2; Device_device_type := 1 |} in
  0x1fe00000 <= pr_arbitration_id (PeriodicRequest_init d) <= 0x1fe0ffff.
Proof.
  intros d.
  apply (X29_dispatcher_id_range_and_injective d d); unfold is_byte; cbn; lia.
Defined.

Section RegisteredDevices.
Context `{V : Values} {DT : Datatypes} {REG : Registry}.

Lemma feed_devices_wf (msgs : list can.Message) (s : ResponseParser) :
  devices_wf (_devices s) -> devices_wf (_devices (fst (feed s msgs))).
Proof.
  revert s. induction msgs as [| msg msgs IH]; intros s Hs; cbn; [exact Hs |].
  pose proof (devices_wf_step s msg Hs) as H1.
  destruct (ResponseParser_parse msg s) as [[s1 lg] r]. cbn in H1.
  specialize (IH s1 H1). destruct (feed s1 msgs) as [s2 rs]. exact IH.
Qed.

(** X30: every device that a parser, fresh at the start, has registered
    gets from [PeriodicRequest] and [OneTimeRequest] an identifier of
    message kind [0x1f] that decodes back to the key it is registered
    under and to its type. *)
Theorem X30_registered_device_dispatcher_id (msgs : list can.Message) (k : Z)
        (d : Device) (operation : Z) (function_name : string) :
  _devices (fst (feed ResponseParser_init msgs)) !! k = Some d ->
  let id32 := pr_arbitration_id (PeriodicRequest_init d) in
  otr_arbitration_id (OneTimeRequest_init d operation function_name) = id32 /\
  get_message_id id32 = 0x1f /\
  get_message_device_id id32 = k /\
  get_message_device_type id32 = Device_device_type d /\
  device_type (Message_init id32 operation) = Device_device_type d.
Proof.
  intros Hk id32.
  assert (Hwf : devices_wf (_devices (fst (feed ResponseParser_init msgs)))).
  { apply feed_devices_wf. intros k0 d0. cbn. rewrite lookup_empty. discriminate. }
  destruct (Hwf k d Hk) as (Hid & Hkb & Htb).
  assert (Hib : is_byte (Device_device_id d)) by (rewrite Hid; exact Hkb).
  assert (Hp : is_byte 0xe0) by (unfold is_byte; lia).
  assert (E : id32 = build_arbitration_id 0x1f 0xe0 (Device_device_type d)
                                          (Device_device_id d)) by reflexivity.
  split; [reflexivity |]. rewrite E.
  split; [apply get_message_id_build; assumption |].
  split; [rewrite get_message_device_id_build by assumption; exact Hid |].
  split; [rewrite get_message_device_type_build by assumption; reflexivity |].
  apply (Message_init_fields 0x1f 0xe0 _ _ operation Hp Htb Hib).
Qed.
End RegisteredDevices.

Lemma X30_registered_device_dispatcher_id_witness :
  let d := {| Device_device_id := 2; Device_device_type := 1 |} in
  _devices (fst (feed (V := Z_values) (DT := sample_datatypes) (REG := sample_registry)
                      ResponseParser_init [single_frame 0x42 42])) !! 2 = Some d /\
  get_message_device_id (pr_arbitration_id (PeriodicRequest_init d)) = 2.
Proof.
  intros d.
  assert (H : _devices (fst (feed (V := Z_values) (DT := sample_datatypes)
                                  (REG := sample_registry)
                                  ResponseParser_init [single_frame 0x42 42])) !! 2
              = Some d) by (vm_compute; reflexivity).
  split; [exact H |].
  destruct (@X30_registered_device_dispatcher_id Z_values sample_datatypes sample_registry
              [single_frame 0x42 42] 2 d 0x40 "sample" H) as (_ & _ & Hid & _).
  exact Hid.
Defined.
